(** * ANTA device checks: a shallow embedding of the test functions

    Sources embedded here:
    - [anta/tests/routing/bgp.py]   (BGP state and peer-count checks)
    - [anta/tests/vxlan.py]         (VXLAN interface and config-sanity checks)
    - [anta/tests/software.py]      (EOS / TerminAttr / Aboot checks)
    - [anta/tests/configuration.py] (zero-touch and running-config diff checks)
    - [anta/cli/debug/commands.py]  (the choice of the device a command runs on)

    Every check is a Python function that builds a [TestResult], asks the
    device session for the output of one command, inspects the decoded
    JSON and records a verdict.  The embedding keeps that shape:
    Python values are a small inductive type, expressions that may raise
    live in an exception monad [res], and statements live in a state
    monad [M] over the [TestResult] under construction, the list of
    commands sent to the device and the history of status assignments. *)

From Stdlib Require Import ZArith List String Ascii Bool Lia DecimalString.
Import ListNotations.

Local Open Scope string_scope.
Local Open Scope Z_scope.

Set Warnings "-register-all".

(** ** Python values *)

(** Decoded JSON and the local lists and dicts the checks build.  Numbers
    are integers: every number the checks read (peer counts, queue
    depths) is one.  A dict is an association list in insertion order,
    which is the order Python iterates and prints it in. *)
Inductive pyval : Type :=
| PNone
| PBool (b : bool)
| PInt (n : Z)
| PStr (s : string)
| PList (l : list pyval)
| PDict (d : list (pyval * pyval)).

(** Exceptions, by class.  [KeyError] carries the missing key; the other
    classes carry the text [str(e)] evaluates to. *)
Inductive exn : Type :=
| AppError (msg : string)
| KeyError (key : pyval)
| socket_timeout (msg : string)
| IndexError (msg : string)
| TypeError (msg : string)
| ValueError (msg : string)
| AttributeError (msg : string)
| UnboundLocalError (msg : string)
| OtherError (msg : string).

(** The value of an expression: a result or a raised exception. *)
Inductive res (A : Type) : Type :=
| Ok (a : A)
| Raise (e : exn).
Arguments Ok {A} a.
Arguments Raise {A} e.

Definition res_bind {A B} (m : res A) (f : A -> res B) : res B :=
  match m with
  | Ok a => f a
  | Raise e => Raise e
  end.

Declare Scope res_scope.
Delimit Scope res_scope with res.
Notation "x <- m ;; k" := (res_bind m (fun x => k))
  (at level 61, m at next level, right associativity) : res_scope.

(** *** Text *)

Definition bool_to_Z (b : bool) : Z := if b then 1 else 0.

Definition string_of_Z (n : Z) : string := NilZero.string_of_int (Z.to_int n).

Definition hex_digit (n : nat) : ascii :=
  match n with
  | 0%nat => "0" | 1%nat => "1" | 2%nat => "2" | 3%nat => "3"
  | 4%nat => "4" | 5%nat => "5" | 6%nat => "6" | 7%nat => "7"
  | 8%nat => "8" | 9%nat => "9" | 10%nat => "a" | 11%nat => "b"
  | 12%nat => "c" | 13%nat => "d" | 14%nat => "e" | _ => "f"
  end%char.

Fixpoint str_mem (c : ascii) (s : string) : bool :=
  match s with
  | EmptyString => false
  | String a r => Ascii.eqb a c || str_mem c r
  end.

Definition squote : ascii := "'"%char.
Definition dquote : ascii := ascii_of_nat 34.
Definition backslash : ascii := ascii_of_nat 92.

(** One character of [repr(str)]: the quote in use and the backslash are
    escaped, tab / newline / carriage return get their letter and other
    control characters a [\xNN] escape.  Bytes above 127 (UTF-8 encoded
    text) are kept as they are, which is what Python does for printable
    characters. *)
Definition repr_char (quote c : ascii) : string :=
  let n := nat_of_ascii c in
  if Ascii.eqb c quote || Ascii.eqb c backslash then String backslash (String c "")
  else if Nat.eqb n 9 then String backslash "t"
  else if Nat.eqb n 10 then String backslash "n"
  else if Nat.eqb n 13 then String backslash "r"
  else if Nat.ltb n 32 || Nat.eqb n 127
       then String backslash
              (String "x" (String (hex_digit (n / 16)) (String (hex_digit (n mod 16)) "")))
  else String c "".

Fixpoint repr_chars (quote : ascii) (s : string) : string :=
  match s with
  | EmptyString => ""
  | String c r => repr_char quote c ++ repr_chars quote r
  end.

(** [repr] of a Python string: single quotes, unless the text has a
    single quote and no double quote. *)
Definition repr_str (s : string) : string :=
  let quote := if str_mem squote s && negb (str_mem dquote s) then dquote else squote in
  String quote (repr_chars quote s ++ String quote "").

(** [repr] of a value, as an f-string prints it. *)
Fixpoint repr (v : pyval) : string :=
  match v with
  | PNone => "None"
  | PBool true => "True"
  | PBool false => "False"
  | PInt n => string_of_Z n
  | PStr s => repr_str s
  | PList l =>
      "[" ++ (fix items (l : list pyval) : string :=
                match l with
                | [] => ""
                | [x] => repr x
                | x :: r => repr x ++ ", " ++ items r
                end) l ++ "]"
  | PDict d =>
      "{" ++ (fix items (d : list (pyval * pyval)) : string :=
                match d with
                | [] => ""
                | [(k, x)] => repr k ++ ": " ++ repr x
                | (k, x) :: r => repr k ++ ": " ++ repr x ++ ", " ++ items r
                end) d ++ "}"
  end.

Definition str_exn (e : exn) : string :=
  match e with
  | KeyError k => repr k
  | AppError m | socket_timeout m | IndexError m | TypeError m
  | ValueError m | AttributeError m | UnboundLocalError m | OtherError m => m
  end.

(** *** Truth, comparison with literals *)

Definition truthy (v : pyval) : bool :=
  match v with
  | PNone => false
  | PBool b => b
  | PInt n => negb (n =? 0)
  | PStr s => negb (String.eqb s "")
  | PList l => match l with [] => false | _ => true end
  | PDict d => match d with [] => false | _ => true end
  end.

(** [v == "literal"] *)
Definition py_eq_str (v : pyval) (s : string) : bool :=
  match v with
  | PStr t => String.eqb t s
  | _ => false
  end.

(** [v == n] for an integer literal; a bool is an int in Python. *)
Definition py_eq_int (v : pyval) (n : Z) : bool :=
  match v with
  | PInt m => m =? n
  | PBool b => bool_to_Z b =? n
  | _ => false
  end.

(** *** Containers *)

Definition hashable (v : pyval) : bool :=
  match v with
  | PList _ | PDict _ => false
  | _ => true
  end.

(** Equality of dict keys: [1], [True] name the same key. *)
Definition key_eqb (a b : pyval) : bool :=
  match a, b with
  | PNone, PNone => true
  | PStr s, PStr t => String.eqb s t
  | PInt n, PInt m => n =? m
  | PInt n, PBool c => n =? bool_to_Z c
  | PBool c, PInt m => bool_to_Z c =? m
  | PBool c, PBool c' => Bool.eqb c c'
  | _, _ => false
  end.

Fixpoint dict_get (k : pyval) (d : list (pyval * pyval)) : option pyval :=
  match d with
  | [] => None
  | (k', v) :: r => if key_eqb k' k then Some v else dict_get k r
  end.

(** [d[k] = v]: an existing key keeps its place, a new one goes last. *)
Fixpoint dict_set (k v : pyval) (d : list (pyval * pyval)) : list (pyval * pyval) :=
  match d with
  | [] => [(k, v)]
  | (k', v') :: r => if key_eqb k' k then (k', v) :: r else (k', v') :: dict_set k v r
  end.

Definition dict_keys (d : list (pyval * pyval)) : list pyval := map fst d.

Fixpoint string_chars (s : string) : list pyval :=
  match s with
  | EmptyString => []
  | String c r => PStr (String c "") :: string_chars r
  end.

Fixpoint is_prefix (p s : string) : bool :=
  match p, s with
  | EmptyString, _ => true
  | String a p', String b s' => Ascii.eqb a b && is_prefix p' s'
  | String _ _, EmptyString => false
  end.

Fixpoint is_substring (p s : string) : bool :=
  is_prefix p s ||
  match s with
  | EmptyString => false
  | String _ r => is_substring p r
  end.

(** Position [i] of a sequence of [len] items, negative indices counting
    from the end. *)
Definition seq_index (i len : Z) : option nat :=
  let j := if i <? 0 then i + len else i in
  if (0 <=? j) && (j <? len) then Some (Z.to_nat j) else None.

(** [c[k]] *)
Definition py_getitem (c k : pyval) : res pyval :=
  match c with
  | PDict d =>
      if hashable k then
        match dict_get k d with
        | Some v => Ok v
        | None => Raise (KeyError k)
        end
      else Raise (TypeError "unhashable type")
  | PList l =>
      match k with
      | PInt _ | PBool _ =>
          let i := match k with PInt i => i | PBool b => bool_to_Z b | _ => 0 end in
          match seq_index i (Z.of_nat (List.length l)) with
          | Some j => match nth_error l j with
                      | Some v => Ok v
                      | None => Raise (IndexError "list index out of range")
                      end
          | None => Raise (IndexError "list index out of range")
          end
      | _ => Raise (TypeError "list indices must be integers or slices")
      end
  | PStr s =>
      match k with
      | PInt _ | PBool _ =>
          let i := match k with PInt i => i | PBool b => bool_to_Z b | _ => 0 end in
          match seq_index i (Z.of_nat (String.length s)) with
          | Some j => match String.get j s with
                      | Some a => Ok (PStr (String a ""))
                      | None => Raise (IndexError "string index out of range")
                      end
          | None => Raise (IndexError "string index out of range")
          end
      | _ => Raise (TypeError "string indices must be integers")
      end
  | _ => Raise (TypeError "object is not subscriptable")
  end.

(** Subscripts chain from the left, as in [response[0]["vrfs"]]: a
    raised exception ends the chain. *)
Definition subscript (m : res pyval) (k : pyval) : res pyval :=
  res_bind m (fun c => py_getitem c k).

Notation "m !! k" := (subscript m k) (at level 40, left associativity).

(** [for x in c]: the items visited. *)
Definition py_iter (c : pyval) : res (list pyval) :=
  match c with
  | PDict d => Ok (dict_keys d)
  | PList l => Ok l
  | PStr s => Ok (string_chars s)
  | _ => Raise (TypeError "object is not iterable")
  end.

(** [c.items()] *)
Definition py_items (c : pyval) : res (list (pyval * pyval)) :=
  match c with
  | PDict d => Ok d
  | _ => Raise (AttributeError "object has no attribute 'items'")
  end.

(** [len(c)] *)
Definition py_len (c : pyval) : res Z :=
  match c with
  | PDict d => Ok (Z.of_nat (List.length d))
  | PList l => Ok (Z.of_nat (List.length l))
  | PStr s => Ok (Z.of_nat (String.length s))
  | _ => Raise (TypeError "object has no len()")
  end.

(** ["literal" in c] *)
Definition py_contains_str (c : pyval) (s : string) : res bool :=
  match c with
  | PDict d => Ok (match dict_get (PStr s) d with Some _ => true | None => false end)
  | PList l => Ok (existsb (fun x => py_eq_str x s) l)
  | PStr t => Ok (is_substring s t)
  | _ => Raise (TypeError "argument is not iterable")
  end.

(** [for x in xs: acc = body(acc, x)] with exceptions. *)
Fixpoint for_res {A X} (xs : list X) (acc : A) (body : A -> X -> res A) : res A :=
  match xs with
  | [] => Ok acc
  | x :: r => res_bind (body acc x) (fun acc' => for_res r acc' body)
  end.

(** ** Results, devices and the statement monad *)

Inductive Status : Type := Unset | Skipped | Success | Failure | Error.

Definition Status_eqb (a b : Status) : bool :=
  match a, b with
  | Unset, Unset | Skipped, Skipped | Success, Success
  | Failure, Failure | Error, Error => true
  | _, _ => false
  end.

Definition terminal (s : Status) : bool := negb (Status_eqb s Unset).

(** Modelled from the spec: the class [TestResult] of
    [anta.result_manager.models] is not among the sources.  Section 3
    gives its fields: device identity, test identity, a status among
    unset, skipped, success, failure and error, and an ordered list of
    messages that is only appended to; a fresh one is unset with no
    message. *)
Record TestResult : Type := mkTestResult {
  host : string;
  test : string;
  result : Status;
  messages : list string
}.

(** One call of [device.session.runCmds(version, cmds, format)]. *)
Record Command : Type := mkCommand {
  cmd_version : Z;
  cmd_lines : list string;
  cmd_format : string
}.

(** The part of [InventoryDevice] the checks use: [device.host] and
    [device.session.runCmds], which answers with decoded JSON or raises. *)
Record InventoryDevice : Type := mkDevice {
  device_host : string;
  session : Command -> res pyval
}.

(** The state a check runs in: the [result] object it builds, the
    commands it has sent so far, and a record of every value assigned to
    [result.result], oldest first.  The last two are observations of the
    run, not Python objects. *)
Record Exec : Type := mkExec {
  this_result : TestResult;
  calls : list Command;
  status_log : list Status
}.

Definition M (A : Type) : Type := Exec -> res A * Exec.

Definition ret {A} (a : A) : M A := fun s => (Ok a, s).

Definition bind {A B} (m : M A) (f : A -> M B) : M B :=
  fun s => match m s with
           | (Ok a, s') => f a s'
           | (Raise e, s') => (Raise e, s')
           end.

Definition lift {A} (r : res A) : M A := fun s => (r, s).

Declare Scope stmt_scope.
Delimit Scope stmt_scope with stmt.
Notation "x <- m ;; k" := (bind m (fun x => k))
  (at level 61, m at next level, right associativity) : stmt_scope.
Notation "m ;; k" := (bind m (fun _ => k))
  (at level 61, right associativity) : stmt_scope.

(** [try: body  except (classes) as e: handler(e)] *)
Definition try_except {A} (body : M A) (caught : exn -> bool) (handler : exn -> M A)
  : M A :=
  fun s => match body s with
           | (Ok u, s') => (Ok u, s')
           | (Raise e, s') => if caught e then handler e s' else (Raise e, s')
           end.

(** [result = TestResult(host=..., test=...)] *)
Definition new_result (h t : string) : M unit :=
  fun s => (Ok tt, mkExec (mkTestResult h t Unset []) (calls s) (status_log s)).

(** [result.result = st] *)
Definition set_result (st : Status) : M unit :=
  fun s =>
    let r := this_result s in
    (Ok tt, mkExec (mkTestResult (host r) (test r) st (messages r))
                   (calls s) (status_log s ++ [st])).

(** [result.messages.append(m)] *)
Definition append_message (m : string) : M unit :=
  fun s =>
    let r := this_result s in
    (Ok tt, mkExec (mkTestResult (host r) (test r) (result r) (messages r ++ [m]))
                   (calls s) (status_log s)).

(** [return result] *)
Definition get_result : M TestResult := fun s => (Ok (this_result s), s).

(** Modelled from the spec: the helpers [is_success], [is_failure],
    [is_skipped] and [is_error] of [TestResult] are not among the
    sources.  They set the status and append the message they are given
    (sections 4.3 and 8); the message defaults to the empty string, and a
    call without one appends nothing (bgp.py calls [is_failure()] and then
    appends the message itself). *)
Definition set_status (st : Status) (message : string) : M unit :=
  (set_result st ;;
   if String.eqb message "" then ret tt else append_message message)%stmt.

Definition is_success (message : string) : M unit := set_status Success message.
Definition is_failure (message : string) : M unit := set_status Failure message.
Definition is_skipped (message : string) : M unit := set_status Skipped message.
Definition is_error (message : string) : M unit := set_status Error message.

(** [device.session.runCmds(version, cmds, format)] *)
Definition runCmds (device : InventoryDevice) (version : Z) (cmds : list string)
  (format : string) : M pyval :=
  fun s =>
    let c := mkCommand version cmds format in
    (session device c, mkExec (this_result s) (calls s ++ [c]) (status_log s)).

(** A check starts with no result object, no command sent and no status
    assigned. *)
Definition start : Exec := mkExec (mkTestResult "" "" Unset []) [] [].

Definition run {A} (m : M A) : res A * Exec := m start.

(** The exception classes of the [except] clauses. *)
Definition caught_bgp (e : exn) : bool :=
  match e with
  | AppError _ | KeyError _ | socket_timeout _ => true
  | _ => false
  end.

Definition caught_software (e : exn) : bool :=
  match e with
  | AppError _ | KeyError _ => true
  | _ => false
  end.

(** Parameters arrive with the type of the signature, or not at all. *)
Definition not_int (x : option Z) : bool :=
  match x with
  | Some n => n =? 0
  | None => true
  end.

Definition not_str (x : option string) : bool :=
  match x with
  | Some s => String.eqb s ""
  | None => true
  end.

Definition not_list {A} (x : option (list A)) : bool :=
  match x with
  | Some (_ :: _) => false
  | _ => true
  end.

Definition int_value (x : option Z) : Z := match x with Some n => n | None => 0 end.
Definition str_value (x : option string) : string := match x with Some s => s | None => "" end.
Definition list_value {A} (x : option (list A)) : list A :=
  match x with Some l => l | None => [] end.

Definition require_hashable (k : pyval) : res unit :=
  if hashable k then Ok tt else Raise (TypeError "unhashable type").

(** [d.setdefault(k, dflt)]: the dict afterwards. *)
Definition dict_setdefault (k dflt : pyval) (d : list (pyval * pyval))
  : list (pyval * pyval) :=
  match dict_get k d with
  | Some _ => d
  | None => d ++ [(k, dflt)]
  end.

(** The [except] clauses: bgp.py and vxlan.py call [result.is_error(str(e))];
    software.py appends [str(e)] and then assigns the status. *)
Definition report_error (e : exn) : M unit := is_error (str_exn e).

Definition record_error (e : exn) : M unit :=
  (append_message (str_exn e) ;; set_result Error)%stmt.

(** ** anta/tests/routing/bgp.py *)

Section Checks.

(** Whether an address family is enabled on a device, and the message
    given when it is not: neither is fixed by the sources. *)
Variable bgp_family_enabled : string -> InventoryDevice -> bool.
Variable bgp_family_skip_message : string -> string.

(** Modelled from the spec: the decorator [check_bgp_family_enable] of
    [anta.decorators] is not among the sources.  Sections 4.3 and 9
    describe it as a precondition ("protocol family administratively
    enabled") evaluated before collection: when it fails the status becomes
    skipped with an explanatory message and no command is sent, otherwise
    the decorated function runs. *)
Definition check_bgp_family_enable (family function_name : string)
  (device : InventoryDevice) (function : M TestResult) : M TestResult :=
  if bgp_family_enabled family device then function
  else (new_result (device_host device) function_name ;;
        is_skipped (bgp_family_skip_message family) ;;
        get_result)%stmt.

(** [bgp_vrfs[vrf]["peers"][peer][field]] *)
Definition peer_field (bgp_vrfs vrf peer : pyval) (field : string) : res pyval :=
  Ok bgp_vrfs !! vrf !! PStr "peers" !! peer !! PStr field.

(** The condition of lines 50-54 and 135-139; [or] stops at the first
    operand that is true. *)
Definition peer_has_issue (bgp_vrfs vrf peer : pyval) : res bool :=
  (peerState <- peer_field bgp_vrfs vrf peer "peerState" ;;
   if negb (py_eq_str peerState "Established") then Ok true else
   inMsgQueue <- peer_field bgp_vrfs vrf peer "inMsgQueue" ;;
   if negb (py_eq_int inMsgQueue 0) then Ok true else
   outMsgQueue <- peer_field bgp_vrfs vrf peer "outMsgQueue" ;;
   Ok (negb (py_eq_int outMsgQueue 0)))%res.

(** The dict literal of lines 58-66 and 129-133. *)
Definition peer_issue_entry (bgp_vrfs vrf peer : pyval) : res pyval :=
  (peerState <- peer_field bgp_vrfs vrf peer "peerState" ;;
   inMsgQueue <- peer_field bgp_vrfs vrf peer "inMsgQueue" ;;
   outMsgQueue <- peer_field bgp_vrfs vrf peer "outMsgQueue" ;;
   Ok (PDict [(PStr "peerState", peerState);
              (PStr "inMsgQueue", inMsgQueue);
              (PStr "outMsgQueue", outMsgQueue)]))%res.

(** One turn of the inner loop, lines 50-68.  [vrf_dict] is the dict
    stored under [vrf] in [state_issue]; updating it updates
    [state_issue]. *)
Definition record_peer_issue (bgp_vrfs vrf : pyval)
  (state_issue : list (pyval * pyval)) (peer : pyval) : res (list (pyval * pyval)) :=
  (issue <- peer_has_issue bgp_vrfs vrf peer ;;
   if issue then
     _ <- require_hashable vrf ;;
     let state_issue := dict_setdefault vrf (PDict []) state_issue in
     let vrf_dict := match dict_get vrf state_issue with
                     | Some (PDict d) => d
                     | _ => []
                     end in
     entry <- peer_issue_entry bgp_vrfs vrf peer ;;
     _ <- require_hashable peer ;;
     Ok (dict_set vrf (PDict (dict_set peer entry vrf_dict)) state_issue)
   else Ok state_issue)%res.

(** The inner loop for one VRF, lines 49-68. *)
Definition record_vrf_issues (bgp_vrfs : pyval)
  (state_issue : list (pyval * pyval)) (vrf : pyval) : res (list (pyval * pyval)) :=
  (peers_of_vrf <- Ok bgp_vrfs !! vrf !! PStr "peers" ;;
   peers <- py_iter peers_of_vrf ;;
   for_res peers state_issue (record_peer_issue bgp_vrfs vrf))%res.

(** The two loops of lines 47-68 (and 191-212). *)
Definition collect_state_issue (bgp_vrfs : pyval) : res pyval :=
  (vrfs <- py_iter bgp_vrfs ;;
   state_issue <- for_res vrfs [] (record_vrf_issues bgp_vrfs) ;;
   Ok (PDict state_issue))%res.

(** The [try] block of lines 39-73 (and 183-217), which differ in the
    command and in the family the message names. *)
Definition unicast_state_try (family_name command : string) (device : InventoryDevice)
  : M unit :=
  (response <- runCmds device 1 [command] "json" ;;
   bgp_vrfs <- lift (Ok response !! PInt 0 !! PStr "vrfs") ;;
   state_issue <- lift (collect_state_issue bgp_vrfs) ;;
   if negb (truthy state_issue) then is_success ""
   else is_failure ("Some " ++ family_name ++ " Unicast BGP Peer are not up: "
                      ++ repr state_issue))%stmt.

Definition verify_bgp_ipv4_unicast_state_try : InventoryDevice -> M unit :=
  unicast_state_try "IPv4" "show bgp ipv4 unicast summary vrf all".

(** bgp.py, lines 17-81. *)
Definition verify_bgp_ipv4_unicast_state (device : InventoryDevice) : M TestResult :=
  check_bgp_family_enable "ipv4" "verify_bgp_ipv4_unicast_state" device
  (new_result (device_host device) "verify_bgp_ipv4_unicast_state" ;;
   try_except (verify_bgp_ipv4_unicast_state_try device) caught_bgp report_error ;;
   get_result)%stmt.

Definition verify_bgp_ipv6_unicast_state_try : InventoryDevice -> M unit :=
  unicast_state_try "IPv6" "show bgp ipv6 unicast summary vrf all".

(** bgp.py, lines 161-223. *)
Definition verify_bgp_ipv6_unicast_state (device : InventoryDevice) : M TestResult :=
  check_bgp_family_enable "ipv6" "verify_bgp_ipv6_unicast_state" device
  (new_result (device_host device) "verify_bgp_ipv6_unicast_state" ;;
   try_except (verify_bgp_ipv6_unicast_state_try device) caught_bgp report_error ;;
   get_result)%stmt.

(** One item of the dict comprehension of lines 128-140: the condition,
    then the value, then the insertion under the key. *)
Definition keep_peer_issue (bgp_vrfs vrf : pyval)
  (peer_state_issue : list (pyval * pyval)) (peer : pyval) : res (list (pyval * pyval)) :=
  (issue <- peer_has_issue bgp_vrfs vrf peer ;;
   if issue then
     entry <- peer_issue_entry bgp_vrfs vrf peer ;;
     _ <- require_hashable peer ;;
     Ok (dict_set peer entry peer_state_issue)
   else Ok peer_state_issue)%res.

(** The dict comprehension of lines 128-140. *)
Definition collect_peer_state_issue (bgp_vrfs vrf : pyval) : res pyval :=
  (peers_of_vrf <- Ok bgp_vrfs !! vrf !! PStr "peers" ;;
   peers <- py_iter peers_of_vrf ;;
   peer_state_issue <- for_res peers [] (keep_peer_issue bgp_vrfs vrf) ;;
   Ok (PDict peer_state_issue))%res.

(** The [try] block of lines 118-151. *)
Definition verify_bgp_ipv4_unicast_count_try (device : InventoryDevice)
  (number : Z) (vrf : string) : M unit :=
  (response <- runCmds device 1 ["show bgp ipv4 unicast summary vrf " ++ vrf] "json" ;;
   bgp_vrfs <- lift (Ok response !! PInt 0 !! PStr "vrfs") ;;
   peer_number <- lift (res_bind (Ok bgp_vrfs !! PStr vrf !! PStr "peers") py_len) ;;
   peer_state_issue <- lift (collect_peer_state_issue bgp_vrfs (PStr vrf)) ;;
   if (peer_number =? number) || truthy peer_state_issue then is_success ""
   else
     is_failure ("Expecting " ++ string_of_Z number ++ " BGP peer in vrf " ++ vrf
                   ++ " and got " ++ string_of_Z peer_number) ;;
     if truthy peer_state_issue then
       is_failure ("Some IPv4 Unicast BGP Peer are not up: " ++ repr peer_state_issue)
     else ret tt)%stmt.

(** bgp.py, lines 84-158.  [None] stands for a parameter that is
    missing; a caller that leaves [vrf] out passes the default of the
    signature, [Some "default"]. *)
Definition verify_bgp_ipv4_unicast_count (device : InventoryDevice)
  (number : option Z) (vrf : option string) : M TestResult :=
  check_bgp_family_enable "ipv4" "verify_bgp_ipv4_unicast_count" device
  (new_result (device_host device) "verify_bgp_ipv4_unicast_count" ;;
   if not_int number || not_str vrf then
     is_skipped "verify_bgp_ipv4_unicast_count could not run because number of vrf was not supplied" ;;
     get_result
   else
     try_except (verify_bgp_ipv4_unicast_count_try device (int_value number) (str_value vrf))
       caught_bgp report_error ;;
     get_result)%stmt.

(** The list comprehension of lines 255-259, 356-360 and 412-416. *)
Definition collect_non_established (peers : pyval) : res pyval :=
  (items <- py_items peers ;;
   non_established_peers <-
     for_res items [] (fun acc item =>
       let '(peer, peer_dict) := item in
       peerState <- Ok peer_dict !! PStr "peerState" ;;
       if negb (py_eq_str peerState "Established") then Ok (acc ++ [peer])%list else Ok acc) ;;
   Ok (PList non_established_peers))%res.

(** The [try] block of lines 248-266. *)
Definition verify_bgp_evpn_state_try (device : InventoryDevice) : M unit :=
  (response <- runCmds device 1 ["show bgp evpn summary"] "json" ;;
   bgp_vrfs <- lift (Ok response !! PInt 0 !! PStr "vrfs") ;;
   peers <- lift (Ok bgp_vrfs !! PStr "default" !! PStr "peers") ;;
   non_established_peers <- lift (collect_non_established peers) ;;
   if negb (truthy non_established_peers) then is_success ""
   else is_failure ("The following EVPN peers are not established: "
                      ++ repr non_established_peers))%stmt.

(** bgp.py, lines 226-273. *)
Definition verify_bgp_evpn_state (device : InventoryDevice) : M TestResult :=
  check_bgp_family_enable "evpn" "verify_bgp_evpn_state" device
  (new_result (device_host device) "verify_bgp_evpn_state" ;;
   try_except (verify_bgp_evpn_state_try device) caught_bgp report_error ;;
   get_result)%stmt.

(** The [try] block of lines 306-319.  [len(peers)] is evaluated once
    here; the source evaluates it again in the inner test and in the
    message, with the same value. *)
Definition verify_bgp_evpn_count_try (device : InventoryDevice) (number : Z) : M unit :=
  (response <- runCmds device 1 ["show bgp evpn summary"] "json" ;;
   peers <- lift (Ok response !! PInt 0 !! PStr "vrfs" !! PStr "default" !! PStr "peers") ;;
   len_peers <- lift (py_len peers) ;;
   if len_peers =? number then is_success ""
   else
     is_failure "" ;;
     if negb (len_peers =? number) then
       append_message ("Expecting " ++ string_of_Z number ++ " BGP EVPN peers and got "
                         ++ string_of_Z len_peers)
     else ret tt)%stmt.

(** bgp.py, lines 276-327. *)
Definition verify_bgp_evpn_count (device : InventoryDevice) (number : option Z)
  : M TestResult :=
  check_bgp_family_enable "evpn" "verify_bgp_evpn_count" device
  (new_result (device_host device) "verify_bgp_evpn_count" ;;
   if not_int number then
     is_skipped "verify_bgp_evpn_count could not run because number was not supplied." ;;
     get_result
   else
     try_except (verify_bgp_evpn_count_try device (int_value number)) caught_bgp report_error ;;
     get_result)%stmt.

(** The [try] block of lines 351-367. *)
Definition verify_bgp_rtc_state_try (device : InventoryDevice) : M unit :=
  (response <- runCmds device 1 ["show bgp rt-membership summary"] "json" ;;
   peers <- lift (Ok response !! PInt 0 !! PStr "vrfs" !! PStr "default" !! PStr "peers") ;;
   non_established_peers <- lift (collect_non_established peers) ;;
   if negb (truthy non_established_peers) then is_success ""
   else is_failure ("The following RTC peers are not established: "
                      ++ repr non_established_peers))%stmt.

(** bgp.py, lines 330-374. *)
Definition verify_bgp_rtc_state (device : InventoryDevice) : M TestResult :=
  check_bgp_family_enable "rtc" "verify_bgp_rtc_state" device
  (new_result (device_host device) "verify_bgp_rtc_state" ;;
   try_except (verify_bgp_rtc_state_try device) caught_bgp report_error ;;
   get_result)%stmt.

(** The [try] block of lines 407-425.  [len(peers)] is evaluated once
    here, ahead of the test; [peers.items()] has succeeded by then, so
    [peers] is a dict and its length cannot raise. *)
Definition verify_bgp_rtc_count_try (device : InventoryDevice) (number : Z) : M unit :=
  (response <- runCmds device 1 ["show bgp rt-membership summary"] "json" ;;
   peers <- lift (Ok response !! PInt 0 !! PStr "vrfs" !! PStr "default" !! PStr "peers") ;;
   non_established_peers <- lift (collect_non_established peers) ;;
   len_peers <- lift (py_len peers) ;;
   if negb (truthy non_established_peers) && (len_peers =? number) then is_success ""
   else
     is_failure "" ;;
     if negb (len_peers =? number) then
       is_failure ("Expecting " ++ string_of_Z number ++ " BGP RTC peers and got "
                     ++ string_of_Z len_peers)
     else ret tt)%stmt.

(** bgp.py, lines 377-432. *)
Definition verify_bgp_rtc_count (device : InventoryDevice) (number : option Z)
  : M TestResult :=
  check_bgp_family_enable "rtc" "verify_bgp_rtc_count" device
  (new_result (device_host device) "verify_bgp_rtc_count" ;;
   if not_int number then
     is_skipped "verify_bgp_rtc_count could not run because number was not supplied" ;;
     get_result
   else
     try_except (verify_bgp_rtc_count_try device (int_value number)) caught_bgp report_error ;;
     get_result)%stmt.

(** ** anta/tests/vxlan.py *)

(** [str(v)], as an f-string formats a value: a string is itself, any
    other value prints as its [repr]. *)
Definition py_str (v : pyval) : string :=
  match v with
  | PStr s => s
  | _ => repr v
  end.

(** The [try] block of lines 34-50.  The field read at line 44 is
    spelled [intefraceStatus] in the source. *)
Definition verify_vxlan_try (device : InventoryDevice) : M unit :=
  (response <- runCmds device 1 ["show interfaces description"] "json" ;;
   response_data <- lift (Ok response !! PInt 0 !! PStr "interfaceDescriptions") ;;
   has_vxlan1 <- lift (py_contains_str response_data "Vxlan1") ;;
   if negb has_vxlan1 then is_failure "No interface VXLAN 1 detected."
   else
     protocol_status <- lift (Ok response_data !! PStr "Vxlan1" !! PStr "lineProtocolStatus") ;;
     interface_status <- lift (Ok response_data !! PStr "Vxlan1" !! PStr "intefraceStatus") ;;
     if py_eq_str protocol_status "up" && py_eq_str interface_status "up" then is_success ""
     else append_message ("Vxlan interface is " ++ py_str protocol_status ++ "/"
                            ++ py_str interface_status ++ "."))%stmt.

(** vxlan.py, lines 15-58. *)
Definition verify_vxlan (device : InventoryDevice) : M TestResult :=
  (new_result (device_host device) "verify_vxlan" ;;
   try_except (verify_vxlan_try device) caught_bgp report_error ;;
   get_result)%stmt.

(** [x is not True] *)
Definition is_not_True (v : pyval) : bool :=
  match v with
  | PBool true => false
  | _ => true
  end.

(** The dict comprehension of lines 88-92; [and] reads
    [content["allCheckPass"]] only for the two categories named. *)
Definition collect_failed_categories (response_data : pyval) : res pyval :=
  (items <- py_items response_data ;;
   failed_categories <-
     for_res items [] (fun acc item =>
       let '(category, content) := item in
       if py_eq_str category "localVtep" || py_eq_str category "mlag" then
         allCheckPass <- Ok content !! PStr "allCheckPass" ;;
         if is_not_True allCheckPass then Ok (dict_set category content acc) else Ok acc
       else Ok acc) ;;
   Ok (PDict failed_categories))%res.

(** The [try] block of lines 79-99.  The [return result] of line 86
    leaves the block with nothing left to run but the final
    [return result]. *)
Definition verify_vxlan_config_sanity_try (device : InventoryDevice) : M unit :=
  (response <- runCmds device 1 ["show vxlan config-sanity"] "json" ;;
   response_data <- lift (Ok response !! PInt 0 !! PStr "categories") ;;
   len_data <- lift (py_len response_data) ;;
   if len_data =? 0 then is_skipped "Vxlan is not enabled on this device"
   else
     failed_categories <- lift (collect_failed_categories response_data) ;;
     if truthy failed_categories then
       is_failure ("Vxlan config sanity check is not passing: " ++ repr failed_categories)
     else is_success "")%stmt.

(** vxlan.py, lines 61-107. *)
Definition verify_vxlan_config_sanity (device : InventoryDevice) : M TestResult :=
  (new_result (device_host device) "verify_vxlan_config_sanity" ;;
   try_except (verify_vxlan_config_sanity_try device) caught_bgp report_error ;;
   get_result)%stmt.

(** ** anta/tests/software.py *)

(** *** String methods *)

(** [s.replace(old, new)] for a non-empty [old]: occurrences are replaced
    from the left and do not overlap.  [skip] counts the characters of
    an occurrence still to be passed over. *)
Fixpoint replace_from (old new : string) (skip : nat) (s : string) : string :=
  match s with
  | EmptyString => ""
  | String c r =>
      match skip with
      | S k => replace_from old new k r
      | O => if is_prefix old s
             then new ++ replace_from old new (String.length old - 1) r
             else String c (replace_from old new 0 r)
      end
  end.

Definition str_replace (old new s : string) : string := replace_from old new 0 s.

(** [s.split(sep)] for a non-empty [sep]. *)
Fixpoint split_from (sep : string) (skip : nat) (cur s : string) : list string :=
  match s with
  | EmptyString => [cur]
  | String c r =>
      match skip with
      | S k => split_from sep k cur r
      | O => if is_prefix sep s
             then cur :: split_from sep (String.length sep - 1) "" r
             else split_from sep 0 (cur ++ String c "") r
      end
  end.

Definition str_split (sep s : string) : list string := split_from sep 0 "" s.

(** [xs[i]] on a list of strings. *)
Definition list_item (xs : list string) (i : Z) : res string :=
  match seq_index i (Z.of_nat (List.length xs)) with
  | Some j => match nth_error xs j with
              | Some x => Ok x
              | None => Raise (IndexError "list index out of range")
              end
  | None => Raise (IndexError "list index out of range")
  end.

Definition is_space (c : ascii) : bool :=
  let n := nat_of_ascii c in
  ((9 <=? n) && (n <=? 13) || (28 <=? n) && (n <=? 32))%nat.

Fixpoint lstrip (drop : ascii -> bool) (s : string) : string :=
  match s with
  | EmptyString => ""
  | String c r => if drop c then lstrip drop r else s
  end.

Fixpoint rstrip (drop : ascii -> bool) (s : string) : string :=
  match s with
  | EmptyString => ""
  | String c r =>
      match rstrip drop r with
      | EmptyString => if drop c then "" else String c ""
      | r' => String c r'
      end
  end.

Definition strip (drop : ascii -> bool) (s : string) : string :=
  rstrip drop (lstrip drop s).

Definition digit_value (c : ascii) : option Z :=
  let n := nat_of_ascii c in
  if ((48 <=? n) && (n <=? 57))%nat then Some (Z.of_nat n - 48) else None.

(** Digits of an integer literal; one underscore may separate two
    digits.  [prev] tells whether the previous character was a digit. *)
Fixpoint parse_digits (acc : Z) (prev : bool) (s : string) : option Z :=
  match s with
  | EmptyString => if prev then Some acc else None
  | String c r =>
      match digit_value c with
      | Some d => parse_digits (10 * acc + d) true r
      | None => if Ascii.eqb c "_" && prev then
                  match r with
                  | EmptyString => None
                  | _ => parse_digits acc false r
                  end
                else None
      end
  end.

(** [int(s)] for a string: surrounding white space, an optional sign,
    decimal digits.  Digits outside ASCII, which Python also accepts,
    are not covered. *)
Definition py_int (s : string) : res Z :=
  let t := strip is_space s in
  let invalid := Raise (ValueError ("invalid literal for int() with base 10: " ++ repr_str s)) in
  match t with
  | String c r =>
      if Ascii.eqb c "-" then
        match parse_digits 0 false r with Some n => Ok (- n) | None => invalid end
      else if Ascii.eqb c "+" then
        match parse_digits 0 false r with Some n => Ok n | None => invalid end
      else
        match parse_digits 0 false t with Some n => Ok n | None => invalid end
  | EmptyString => invalid
  end.

(** A string method called on a value: anything but a string has no such
    attribute. *)
Definition as_str (method : string) (v : pyval) : res string :=
  match v with
  | PStr s => Ok s
  | _ => Raise (AttributeError ("object has no attribute " ++ repr_str method))
  end.

(** *** The version checks *)

(** The [try] block of lines 37-43. *)
Definition verify_eos_version_try (device : InventoryDevice) (versions : list string)
  : M unit :=
  (response <- runCmds device 1 ["show version"] "json" ;;
   version <- lift (Ok response !! PInt 0 !! PStr "version") ;;
   if existsb (py_eq_str version) versions then set_result Success
   else
     set_result Failure ;;
     version <- lift (Ok response !! PInt 0 !! PStr "version") ;;
     append_message ("device is running version " ++ py_str version
                       ++ " not in expected version"))%stmt.

(** software.py, lines 11-47. *)
Definition verify_eos_version (device : InventoryDevice) (versions : option (list string))
  : M TestResult :=
  (new_result (device_host device) "verify_eos_version" ;;
   if not_list versions then
     set_result Unset ;;
     append_message "verify_eos_version was not run as no versions were givem" ;;
     get_result
   else
     try_except (verify_eos_version_try device (list_value versions))
       caught_software record_error ;;
     get_result)%stmt.

(** The [try] block of lines 74-81. *)
Definition verify_terminattr_version_try (device : InventoryDevice)
  (versions : list string) : M unit :=
  (response <- runCmds device 1 ["show version detail"] "json" ;;
   response_data <- lift (Ok response !! PInt 0 !! PStr "details" !! PStr "packages"
                            !! PStr "TerminAttr-core" !! PStr "version") ;;
   if existsb (py_eq_str response_data) versions then set_result Success
   else
     set_result Failure ;;
     append_message ("device is running TerminAttr version " ++ py_str response_data
                       ++ " and is not in the allowed list"))%stmt.

(** software.py, lines 50-85. *)
Definition verify_terminattr_version (device : InventoryDevice)
  (versions : option (list string)) : M TestResult :=
  (new_result (device_host device) "verify_terminattr_version" ;;
   if not_list versions then
     set_result Unset ;;
     append_message "verify_terminattr_version was not run as no versions were givem" ;;
     get_result
   else
     try_except (verify_terminattr_version_try device (list_value versions))
       caught_software record_error ;;
     get_result)%stmt.

(** *** Extensions *)

(** [a < b], as [list.sort] asks it: strings by code point, integers and
    bools by value; any other pairing is not ordered.  (Lists, which
    Python orders item by item, never reach the sort below.) *)
Definition py_lt (a b : pyval) : res bool :=
  match a, b with
  | PStr s, PStr t => Ok (String.ltb s t)
  | PInt n, PInt m => Ok (n <? m)
  | PInt n, PBool c => Ok (n <? bool_to_Z c)
  | PBool c, PInt m => Ok (bool_to_Z c <? m)
  | PBool c, PBool c' => Ok (bool_to_Z c <? bool_to_Z c')
  | _, _ => Raise (TypeError "'<' not supported between instances")
  end.

Fixpoint sort_insert (x : pyval) (sorted : list pyval) : res (list pyval) :=
  match sorted with
  | [] => Ok [x]
  | y :: r =>
      res_bind (py_lt x y) (fun lt =>
        if lt then Ok (x :: y :: r)
        else res_bind (sort_insert x r) (fun r' => Ok (y :: r')))
  end.

(** [xs.sort()]: a stable sort, which raises when two items cannot be
    ordered. *)
Definition py_sort (xs : list pyval) : res (list pyval) :=
  for_res xs [] (fun sorted x => sort_insert x sorted).

(** [xs == ys] for two lists *)
Fixpoint list_eq (xs ys : list pyval) : bool :=
  match xs, ys with
  | [], [] => true
  | x :: xs', PStr y :: ys' => py_eq_str x y && list_eq xs' ys'
  | x :: xs', PInt n :: ys' => py_eq_int x n && list_eq xs' ys'
  | _, _ => false
  end.

Definition is_newline (c : ascii) : bool := Nat.eqb (nat_of_ascii c) 10.

Definition is_AppError (e : exn) : bool :=
  match e with AppError _ => true | _ => false end.

Definition is_KeyError (e : exn) : bool :=
  match e with KeyError _ => true | _ => false end.

(** The second [try] block, lines 106-120. *)
Definition verify_eos_extensions_try (response : pyval) : M (option bool) :=
  (installed_extensions <- lift (
     res_bind (res_bind (Ok response !! PInt 0 !! PStr "extensions") py_iter)
       (fun extensions =>
          for_res extensions [] (fun installed extension =>
            res_bind (Ok response !! PInt 0 !! PStr "extensions" !! extension !! PStr "status")
              (fun status =>
                 if py_eq_str status "installed"
                 then Ok (installed ++ [extension])%list
                 else Ok installed)))) ;;
   boot_extensions <- lift (
     res_bind (res_bind (Ok response !! PInt 1 !! PStr "extensions") py_iter)
       (fun extensions =>
          for_res extensions [] (fun boot extension =>
            res_bind (as_str "strip" extension) (fun extension =>
              let extension := strip is_newline extension in
              if String.eqb extension "" then Ok boot
              else Ok (boot ++ [PStr extension])%list)))) ;;
   installed_extensions <- lift (py_sort installed_extensions) ;;
   boot_extensions <- lift (py_sort boot_extensions) ;;
   if list_eq installed_extensions boot_extensions then ret (Some true)
   else ret (Some false))%stmt.

(** software.py, lines 87-122.  This check builds no [TestResult]: it
    returns [True], [False] or [None]. *)
Definition verify_eos_extensions (device : InventoryDevice) : M (option bool) :=
  (collected <-
     try_except
       (response <- runCmds device 1 ["show extensions"; "show boot-extensions"] "json" ;;
        ret (Some response))
       is_AppError
       (fun _ => ret None) ;;
   match collected with
   | None => ret None
   | Some response =>
       try_except (verify_eos_extensions_try response) is_KeyError (fun _ => ret None)
   end)%stmt.

(** *** Field notice 44 *)

Definition fn44_devices : list string :=
  ["DCS-7010T-48"; "DCS-7010T-48-DC"; "DCS-7050TX-48"; "DCS-7050TX-64";
   "DCS-7050TX-72"; "DCS-7050TX-72Q"; "DCS-7050TX-96"; "DCS-7050TX2-128";
   "DCS-7050SX-64"; "DCS-7050SX-72"; "DCS-7050SX-72Q"; "DCS-7050SX2-72Q";
   "DCS-7050SX-96"; "DCS-7050SX2-128"; "DCS-7050QX-32S"; "DCS-7050QX2-32S";
   "DCS-7050SX3-48YC12"; "DCS-7050CX3-32S"; "DCS-7060CX-32S"; "DCS-7060CX2-32S";
   "DCS-7060SX2-48YC6"; "DCS-7160-48YC6"; "DCS-7160-48TC6"; "DCS-7160-32CQ";
   "DCS-7280SE-64"; "DCS-7280SE-68"; "DCS-7280SE-72"; "DCS-7150SC-24-CLD";
   "DCS-7150SC-64-CLD"; "DCS-7020TR-48"; "DCS-7020TRA-48"; "DCS-7020SR-24C2";
   "DCS-7020SRG-24C2"; "DCS-7280TR-48C6"; "DCS-7280TRA-48C6"; "DCS-7280SR-48C6";
   "DCS-7280SRA-48C6"; "DCS-7280SRAM-48C6"; "DCS-7280SR2K-48C6-M";
   "DCS-7280SR2-48YC6"; "DCS-7280SR2A-48YC6"; "DCS-7280SRM-40CX2";
   "DCS-7280QR-C36"; "DCS-7280QRA-C36S"].

Definition fn44_variants : list string :=
  ["-SSD-F"; "-SSD-R"; "-M-F"; "-M-R"; "-F"; "-R"].

(** Lines 202-204: the Aboot version is that of the last component named
    Aboot; the variable stays unbound when there is none. *)
Definition find_aboot_version (components : list pyval) : res (option string) :=
  for_res components None (fun aboot_version component =>
    (name <- Ok component !! PStr "name" ;;
     if py_eq_str name "Aboot" then
       version <- Ok component !! PStr "version" ;;
       version <- as_str "split" version ;;
       part <- list_item (str_split "-" version) 2 ;;
       Ok (Some part)
     else Ok aboot_version)%res).

(** [aboot_version.startswith(prefix) and
     int(aboot_version.split('.')[2]) < bound] *)
Definition aboot_older (aboot_version prefix : string) (bound : Z) : res bool :=
  if is_prefix prefix aboot_version then
    (part <- list_item (str_split "." aboot_version) 2 ;;
     n <- py_int part ;;
     Ok (n <? bound))%res
  else Ok false.

Definition fn44_failure (aboot_version : string) : M unit :=
  (set_result Failure ;;
   append_message ("device is running incorrect version of aboot (" ++ aboot_version ++ ")"))%stmt.

(** The [try] block of lines 142-221. *)
Definition verify_field_notice_44_resolution_try (device : InventoryDevice) : M unit :=
  (response <- runCmds device 1 ["show version detail"] "json" ;;
   model <- lift (Ok response !! PInt 0 !! PStr "modelName") ;;
   model <- lift (for_res fn44_variants model (fun model variant =>
                    res_bind (as_str "replace" model) (fun m =>
                      Ok (PStr (str_replace variant "" m))))) ;;
   (if negb (existsb (py_eq_str model) fn44_devices) then
      set_result Unset ;;
      append_message "device is not impacted by FN044"
    else ret tt) ;;
   components <- lift (res_bind (Ok response !! PInt 0 !! PStr "details" !! PStr "components")
                         py_iter) ;;
   aboot_version <- lift (find_aboot_version components) ;;
   set_result Success ;;
   aboot_version <- lift (match aboot_version with
                          | Some v => Ok v
                          | None => Raise (UnboundLocalError
                              "local variable 'aboot_version' referenced before assignment")
                          end) ;;
   older <- lift (aboot_older aboot_version "4.0." 7) ;;
   if older then fn44_failure aboot_version else
   older <- lift (aboot_older aboot_version "4.1." 1) ;;
   if older then fn44_failure aboot_version else
   older <- lift (aboot_older aboot_version "6.0." 9) ;;
   if older then fn44_failure aboot_version else
   older <- lift (aboot_older aboot_version "6.1." 7) ;;
   if older then fn44_failure aboot_version else ret tt)%stmt.

(** software.py, lines 125-225. *)
Definition verify_field_notice_44_resolution (device : InventoryDevice) : M TestResult :=
  (new_result (device_host device) "verify_field_notice_44_resolution" ;;
   try_except (verify_field_notice_44_resolution_try device) caught_software record_error ;;
   get_result)%stmt.

(** ** anta/tests/configuration.py *)

(** [for line in command_output: self.result.is_failure(line)], lines
    63-64.  Messages are strings; a line that is not one raises here. *)
Fixpoint report_lines (lines : list pyval) : M unit :=
  match lines with
  | [] => ret tt
  | line :: rest =>
      (line <- lift (match line with
                     | PStr l => Ok l
                     | _ => Raise (TypeError "message is not a string")
                     end) ;;
       is_failure line ;;
       report_lines rest)%stmt
  end.

(** The body of [VerifyRunningConfigDiffs.test], lines 50-65, run on
    [self.result] with the output of the command already collected. *)
Definition VerifyRunningConfigDiffs_test (command_output : pyval) : M unit :=
  match command_output with
  | PNone => is_success ""
  | PList cmds =>
      if negb (existsb (fun cmd => negb (py_eq_str cmd "") && truthy cmd) cmds)
      then is_success ""
      else ret tt
  | _ =>
      (is_failure "" ;;
       lines <- lift (py_iter command_output) ;;
       report_lines lines)%stmt
  end.

(** ** The checks as catalog entries *)

(** A check of the three modules that returns a [TestResult], with the
    parameters it is called with. *)
Inductive Check : Type :=
| VerifyBgpIpv4UnicastState
| VerifyBgpIpv4UnicastCount (number : option Z) (vrf : option string)
| VerifyBgpIpv6UnicastState
| VerifyBgpEvpnState
| VerifyBgpEvpnCount (number : option Z)
| VerifyBgpRtcState
| VerifyBgpRtcCount (number : option Z)
| VerifyVxlan
| VerifyVxlanConfigSanity
| VerifyEosVersion (versions : option (list string))
| VerifyTerminattrVersion (versions : option (list string))
| VerifyFieldNotice44Resolution.

Definition run_check (c : Check) (device : InventoryDevice) : M TestResult :=
  match c with
  | VerifyBgpIpv4UnicastState => verify_bgp_ipv4_unicast_state device
  | VerifyBgpIpv4UnicastCount number vrf => verify_bgp_ipv4_unicast_count device number vrf
  | VerifyBgpIpv6UnicastState => verify_bgp_ipv6_unicast_state device
  | VerifyBgpEvpnState => verify_bgp_evpn_state device
  | VerifyBgpEvpnCount number => verify_bgp_evpn_count device number
  | VerifyBgpRtcState => verify_bgp_rtc_state device
  | VerifyBgpRtcCount number => verify_bgp_rtc_count device number
  | VerifyVxlan => verify_vxlan device
  | VerifyVxlanConfigSanity => verify_vxlan_config_sanity device
  | VerifyEosVersion versions => verify_eos_version device versions
  | VerifyTerminattrVersion versions => verify_terminattr_version device versions
  | VerifyFieldNotice44Resolution => verify_field_notice_44_resolution device
  end.

End Checks.

(** ** Vocabulary of the properties *)

(** What a finished run returned and the state it ended in. *)
Definition outcome {A} (m : M A) : res A := fst (run m).
Definition final {A} (m : M A) : Exec := snd (run m).

(** A device on which every BGP address family is enabled, so that the
    decorated functions always run. *)
Definition every_family_enabled : string -> InventoryDevice -> bool := fun _ _ => true.
Definition no_family_message : string -> string := fun _ => "".

(** The address family a check is decorated with, if any. *)
Definition check_family (c : Check) : option string :=
  match c with
  | VerifyBgpIpv4UnicastState | VerifyBgpIpv4UnicastCount _ _ => Some "ipv4"
  | VerifyBgpIpv6UnicastState => Some "ipv6"
  | VerifyBgpEvpnState | VerifyBgpEvpnCount _ => Some "evpn"
  | VerifyBgpRtcState | VerifyBgpRtcCount _ => Some "rtc"
  | _ => None
  end.

Definition check_name (c : Check) : string :=
  match c with
  | VerifyBgpIpv4UnicastState => "verify_bgp_ipv4_unicast_state"
  | VerifyBgpIpv4UnicastCount _ _ => "verify_bgp_ipv4_unicast_count"
  | VerifyBgpIpv6UnicastState => "verify_bgp_ipv6_unicast_state"
  | VerifyBgpEvpnState => "verify_bgp_evpn_state"
  | VerifyBgpEvpnCount _ => "verify_bgp_evpn_count"
  | VerifyBgpRtcState => "verify_bgp_rtc_state"
  | VerifyBgpRtcCount _ => "verify_bgp_rtc_count"
  | VerifyVxlan => "verify_vxlan"
  | VerifyVxlanConfigSanity => "verify_vxlan_config_sanity"
  | VerifyEosVersion _ => "verify_eos_version"
  | VerifyTerminattrVersion _ => "verify_terminattr_version"
  | VerifyFieldNotice44Resolution => "verify_field_notice_44_resolution"
  end.

(** The precondition of the decorator holds on the device. *)
Definition family_enabled_for (enabled : string -> InventoryDevice -> bool)
  (c : Check) (device : InventoryDevice) : bool :=
  match check_family c with
  | Some family => enabled family device
  | None => true
  end.

(** The check has a parameter that is absent. *)
Definition parameter_absent (c : Check) : bool :=
  match c with
  | VerifyBgpIpv4UnicastCount None _ | VerifyBgpIpv4UnicastCount _ None
  | VerifyBgpEvpnCount None | VerifyBgpRtcCount None
  | VerifyEosVersion None | VerifyTerminattrVersion None => true
  | _ => false
  end.

(** The guard that opens the function lets the check run. *)
Definition parameters_supplied (c : Check) : bool :=
  match c with
  | VerifyBgpIpv4UnicastCount number vrf => negb (not_int number || not_str vrf)
  | VerifyBgpEvpnCount number | VerifyBgpRtcCount number => negb (not_int number)
  | VerifyEosVersion versions | VerifyTerminattrVersion versions => negb (not_list versions)
  | _ => true
  end.

(** The text a check explains a missing parameter with. *)
Definition absent_message (c : Check) : string :=
  match c with
  | VerifyBgpIpv4UnicastCount _ _ =>
      "verify_bgp_ipv4_unicast_count could not run because number of vrf was not supplied"
  | VerifyBgpEvpnCount _ =>
      "verify_bgp_evpn_count could not run because number was not supplied."
  | VerifyBgpRtcCount _ =>
      "verify_bgp_rtc_count could not run because number was not supplied"
  | VerifyEosVersion _ => "verify_eos_version was not run as no versions were givem"
  | VerifyTerminattrVersion _ =>
      "verify_terminattr_version was not run as no versions were givem"
  | _ => ""
  end.

(** The checks of software.py, whose [except] clause and guard differ
    from those of bgp.py and vxlan.py. *)
Definition in_software (c : Check) : bool :=
  match c with
  | VerifyEosVersion _ | VerifyTerminattrVersion _ | VerifyFieldNotice44Resolution => true
  | _ => false
  end.

(** The [try] block of a check. *)
Definition check_try (c : Check) (device : InventoryDevice) : M unit :=
  match c with
  | VerifyBgpIpv4UnicastState => verify_bgp_ipv4_unicast_state_try device
  | VerifyBgpIpv4UnicastCount number vrf =>
      verify_bgp_ipv4_unicast_count_try device (int_value number) (str_value vrf)
  | VerifyBgpIpv6UnicastState => verify_bgp_ipv6_unicast_state_try device
  | VerifyBgpEvpnState => verify_bgp_evpn_state_try device
  | VerifyBgpEvpnCount number => verify_bgp_evpn_count_try device (int_value number)
  | VerifyBgpRtcState => verify_bgp_rtc_state_try device
  | VerifyBgpRtcCount number => verify_bgp_rtc_count_try device (int_value number)
  | VerifyVxlan => verify_vxlan_try device
  | VerifyVxlanConfigSanity => verify_vxlan_config_sanity_try device
  | VerifyEosVersion versions => verify_eos_version_try device (list_value versions)
  | VerifyTerminattrVersion versions =>
      verify_terminattr_version_try device (list_value versions)
  | VerifyFieldNotice44Resolution => verify_field_notice_44_resolution_try device
  end.

(** The state in which the [try] block of a check starts: a fresh
    result, nothing sent. *)
Definition at_try (c : Check) (device : InventoryDevice) : Exec :=
  mkExec (mkTestResult (device_host device) (check_name c) Unset []) [] [].

(** The state machine of a result.  [allowed a b] says whether a status
    [a] may be followed by an assignment of [b]; [follows allowed a log]
    checks a whole history from the status [a]. *)
Fixpoint follows (allowed : Status -> Status -> bool) (current : Status)
  (log : list Status) : bool :=
  match log with
  | [] => true
  | next :: rest => allowed current next && follows allowed next rest
  end.

(** Forward only: a terminal status is never replaced by another one. *)
Definition forward (a b : Status) : bool := negb (terminal a) || Status_eqb a b.

(** Forward, but for a success that is taken back. *)
Definition forward_or_retract (a b : Status) : bool :=
  forward a b || (Status_eqb a Success && Status_eqb b Failure).

Definition forward_only (log : list Status) : bool := follows forward Unset log.

(** *** Well-formed BGP summaries *)

(** The three fields a check keeps of a peer with an issue. *)
Definition issue_entry (state inq outq : pyval) : pyval :=
  PDict [(PStr "peerState", state); (PStr "inMsgQueue", inq); (PStr "outMsgQueue", outq)].

Definition has_key (field : string) (x : pyval) : bool :=
  match py_getitem x (PStr field) with
  | Ok _ => true
  | Raise _ => false
  end.

Definition is_str (v : pyval) : bool :=
  match v with
  | PStr _ => true
  | _ => false
  end.

(** A peer entry with the three fields the state checks read. *)
Definition peer_well_formed (x : pyval) : bool :=
  has_key "peerState" x && has_key "inMsgQueue" x && has_key "outMsgQueue" x.

(** A JSON object of peers, each passing [check]. *)
Definition peers_well_formed (check : pyval -> bool) (peers : pyval) : bool :=
  match peers with
  | PDict ps => forallb (fun kv => is_str (fst kv) && check (snd kv)) ps
  | _ => false
  end.

Definition vrf_well_formed (e : pyval) : bool :=
  match py_getitem e (PStr "peers") with
  | Ok peers => peers_well_formed peer_well_formed peers
  | Raise _ => false
  end.

(** The value of ["vrfs"] in the answer to [show bgp ... summary]: an
    object of VRFs, each with an object of peers. *)
Definition vrfs_well_formed (bgp_vrfs : pyval) : bool :=
  match bgp_vrfs with
  | PDict d => forallb (fun kv => is_str (fst kv) && vrf_well_formed (snd kv)) d
  | _ => false
  end.

(** The text between the braces of [repr] of a dict. *)
Fixpoint repr_pairs (d : list (pyval * pyval)) : string :=
  match d with
  | [] => ""
  | [(k, x)] => repr k ++ ": " ++ repr x
  | (k, x) :: r => repr k ++ ": " ++ repr x ++ ", " ++ repr_pairs r
  end.

(** The three fields of peer [p] of VRF [v] can be read. *)
Definition peer_known (bgp_vrfs : pyval) (v p : string) : Prop :=
  exists st i o,
    peer_field bgp_vrfs (PStr v) (PStr p) "peerState" = Ok st /\
    peer_field bgp_vrfs (PStr v) (PStr p) "inMsgQueue" = Ok i /\
    peer_field bgp_vrfs (PStr v) (PStr p) "outMsgQueue" = Ok o.

(** [p] is a key of the peers of VRF [v]. *)
Definition peer_listed (d : list (pyval * pyval)) (v p : string) : Prop :=
  exists e ps, dict_get (PStr v) d = Some e /\ py_getitem e (PStr "peers") = Ok (PDict ps) /\
               In (PStr p) (dict_keys ps).

(** [state_issue[v][p]] holds the entry of the peer. *)
Definition reported (bgp_vrfs : pyval) (state_issue : list (pyval * pyval)) (v p : string)
  : Prop :=
  exists d E, dict_get (PStr v) state_issue = Some (PDict d) /\ dict_get (PStr p) d = Some E /\
              peer_issue_entry bgp_vrfs (PStr v) (PStr p) = Ok E.

(** Every value of [state_issue] is a dict. *)
Definition all_dicts (state_issue : list (pyval * pyval)) : Prop :=
  forall s x, dict_get (PStr s) state_issue = Some x -> exists d, x = PDict d.

(** A device that answers every command with [response], and one whose
    session raises [e] on every command. *)
Definition answering (name : string) (response : pyval) : InventoryDevice :=
  mkDevice name (fun _ => Ok response).

Definition failing (name : string) (e : exn) : InventoryDevice :=
  mkDevice name (fun _ => Raise e).

(** A JSON object, from its fields. *)
Definition obj (fields : list (string * pyval)) : pyval :=
  PDict (map (fun kv => (PStr (fst kv), snd kv)) fields).

Definition bgp_peer (state : string) (inq outq : Z) : pyval :=
  obj [("peerState", PStr state); ("inMsgQueue", PInt inq); ("outMsgQueue", PInt outq)].

(** The answer to a BGP summary command, from its VRFs and their peers. *)
Definition bgp_summary (vrfs : list (string * list (string * pyval))) : pyval :=
  PList [obj [("vrfs", obj (map (fun v => (fst v, obj [("peers", obj (snd v))])) vrfs))]].

(** The outcome of a check that stops at its guard: a result with one
    message, no command sent, one status assigned. *)
Definition stopped (h name : string) (st : Status) (message : string) : res TestResult * Exec :=
  let r := mkTestResult h name st [message] in
  (Ok r, mkExec r [] [st]).

(** The command a check sends. *)
Definition check_command (c : Check) : Command :=
  mkCommand 1
    match c with
    | VerifyBgpIpv4UnicastState => ["show bgp ipv4 unicast summary vrf all"]
    | VerifyBgpIpv4UnicastCount _ vrf => ["show bgp ipv4 unicast summary vrf " ++ str_value vrf]
    | VerifyBgpIpv6UnicastState => ["show bgp ipv6 unicast summary vrf all"]
    | VerifyBgpEvpnState | VerifyBgpEvpnCount _ => ["show bgp evpn summary"]
    | VerifyBgpRtcState | VerifyBgpRtcCount _ => ["show bgp rt-membership summary"]
    | VerifyVxlan => ["show interfaces description"]
    | VerifyVxlanConfigSanity => ["show vxlan config-sanity"]
    | VerifyEosVersion _ => ["show version"]
    | VerifyTerminattrVersion _ | VerifyFieldNotice44Resolution => ["show version detail"]
    end
    "json".

(** A peer that is established with both queues empty. *)
Definition peer_healthy (x : pyval) : bool :=
  match py_getitem x (PStr "peerState"), py_getitem x (PStr "inMsgQueue"),
        py_getitem x (PStr "outMsgQueue") with
  | Ok st, Ok i, Ok o => py_eq_str st "Established" && py_eq_int i 0 && py_eq_int o 0
  | _, _, _ => false
  end.

(** *** Sample devices *)

(** One VRF with a single peer, which is idle. *)
Definition one_idle_peer : InventoryDevice :=
  answering "leaf1" (bgp_summary [("default", [("10.0.0.1", bgp_peer "Idle" 0 0)])]).

(** One VRF with two peers, the second of which is idle. *)
Definition two_peers_one_idle : InventoryDevice :=
  answering "leaf1"
    (bgp_summary [("default", [("10.0.0.1", bgp_peer "Established" 0 0);
                               ("10.0.0.2", bgp_peer "Idle" 0 0)])]).

(** One VRF with two peers, both idle. *)
Definition two_idle_peers : InventoryDevice :=
  answering "leaf1"
    (bgp_summary [("default", [("10.0.0.1", bgp_peer "Idle" 0 0);
                               ("10.0.0.2", bgp_peer "Idle" 0 0)])]).

(** One VRF with three peers, all established with empty queues. *)
Definition three_healthy_peers : InventoryDevice :=
  answering "leaf1"
    (bgp_summary [("default", [("10.0.0.1", bgp_peer "Established" 0 0);
                               ("10.0.0.2", bgp_peer "Established" 0 0);
                               ("10.0.0.3", bgp_peer "Established" 0 0)])]).

(** Two VRFs; the peer of the second is active with four messages
    waiting to go out. *)
Definition two_vrfs_summary : pyval :=
  bgp_summary [("default", [("10.0.0.1", bgp_peer "Established" 0 0)]);
               ("PROD", [("10.0.0.2", bgp_peer "Active" 0 4)])].

Definition two_vrfs_one_active : InventoryDevice := answering "leaf1" two_vrfs_summary.

(** A device whose session times out, and one that rejects the command. *)
Definition timing_out : InventoryDevice := failing "leaf1" (socket_timeout "timed out").

Definition rejecting : InventoryDevice := failing "leaf1" (AppError "invalid command").

(** An impacted model with Aboot 4.0.1. *)
Definition old_aboot : InventoryDevice :=
  answering "leaf1"
    (PList [obj [("modelName", PStr "DCS-7010T-48");
                 ("details",
                  obj [("components",
                        PList [obj [("name", PStr "Aboot");
                                    ("version", PStr "Aboot-norcal6-4.0.1-3255441")]])])]]).

(** The same model with an Aboot version string of two parts, and with
    no Aboot among its components. *)
Definition short_aboot_version : InventoryDevice :=
  answering "leaf1"
    (PList [obj [("modelName", PStr "DCS-7010T-48");
                 ("details",
                  obj [("components",
                        PList [obj [("name", PStr "Aboot");
                                    ("version", PStr "Aboot-norcal6")]])])]]).

Definition no_aboot_component : InventoryDevice :=
  answering "leaf1"
    (PList [obj [("modelName", PStr "DCS-7010T-48");
                 ("details", obj [("components", PList [])])]]).

(** A device without VXLAN: [show vxlan config-sanity] lists no category. *)
Definition no_vxlan_categories : InventoryDevice :=
  answering "leaf1" (PList [obj [("categories", obj [])]]).

(** Vxlan1 as a device reports it, both statuses up. *)
Definition vxlan1_entry_up : list (pyval * pyval) :=
  [(PStr "lineProtocolStatus", PStr "up"); (PStr "interfaceStatus", PStr "up")].

Definition vxlan1_up_response : pyval :=
  PList [obj [("interfaceDescriptions", PDict [(PStr "Vxlan1", PDict vxlan1_entry_up)])]].

Definition vxlan1_up : InventoryDevice := answering "leaf1" vxlan1_up_response.

(** Vxlan1 down, in an answer that spells the second field the way
    [verify_vxlan] reads it. *)
Definition vxlan1_down_as_read : InventoryDevice :=
  answering "leaf1"
    (PList [obj [("interfaceDescriptions",
                  obj [("Vxlan1", obj [("lineProtocolStatus", PStr "down");
                                       ("intefraceStatus", PStr "down")])])]]).

(** An answer to [show version] without the version. *)
Definition no_version_field : InventoryDevice := answering "leaf1" (PList [obj []]).

(** ** anta/tests/configuration.py, the zero-touch check *)

(** A failed [assert]: the text of an [AssertionError] raised without a
    message is empty. *)
Definition AssertionError : exn := OtherError "".

Definition is_dict (v : pyval) : bool :=
  match v with
  | PDict _ => true
  | _ => false
  end.

(** The body of [VerifyZeroTouch.test], lines 26-37, run on
    [self.result]; [output] is the value of
    [self.instance_commands[0].output]. *)
Definition VerifyZeroTouch_test (output : pyval) : M unit :=
  (command_output <- lift (Ok output !! PInt 0) ;;
   lift (if is_dict command_output then Ok tt else Raise AssertionError) ;;
   mode <- lift (Ok command_output !! PStr "mode") ;;
   if py_eq_str mode "disabled" then is_success ""
   else is_failure "ZTP is NOT disabled")%stmt.

(** ** anta/cli/debug/commands.py *)

(** Lines 41 and 71 of [run_cmd] and [run_template]:
    [[d for d in inventory_anta.get_inventory() if d.name == device][0]],
    over any type of devices that have a name. *)
Definition select_device {D : Type} (name_of : D -> string) (inventory : list D)
  (device : string) : res D :=
  match filter (fun d => String.eqb (name_of d) device) inventory with
  | d :: _ => Ok d
  | [] => Raise (IndexError "list index out of range")
  end.

(** ** More vocabulary *)

(** A peer entry whose state is Established. *)
Definition established (x : pyval) : bool :=
  match py_getitem x (PStr "peerState") with
  | Ok st => py_eq_str st "Established"
  | Raise _ => false
  end.

(** The keys of the peers that are not established, in the order of
    the answer. *)
Definition non_established_names (ps : list (pyval * pyval)) : list pyval :=
  map fst (filter (fun kv => negb (established (snd kv))) ps).

(** Every peer has a state. *)
Definition peers_have_state (ps : list (pyval * pyval)) : bool :=
  forallb (fun kv => has_key "peerState" (snd kv)) ps.

Definition is_nil {A} (l : list A) : bool :=
  match l with
  | [] => true
  | _ => false
  end.

(** The message of the two checks that list the peers that are not
    established. *)
Definition not_established_message (c : Check) (names : list pyval) : string :=
  match c with
  | VerifyBgpEvpnState => "The following EVPN peers are not established: " ++ repr (PList names)
  | VerifyBgpRtcState => "The following RTC peers are not established: " ++ repr (PList names)
  | _ => ""
  end.

(** The VRF whose peers a check reads by name: the one it is given, or
    the default one. *)
Definition vrf_read (c : Check) : option string :=
  match c with
  | VerifyBgpIpv4UnicastCount _ vrf => Some (str_value vrf)
  | VerifyBgpEvpnState | VerifyBgpEvpnCount _ | VerifyBgpRtcState | VerifyBgpRtcCount _ =>
      Some "default"
  | _ => None
  end.

(** The message of the two unicast state checks. *)
Definition state_issue_message (c : Check) (state_issue : list (pyval * pyval)) : string :=
  match c with
  | VerifyBgpIpv4UnicastState =>
      "Some IPv4 Unicast BGP Peer are not up: " ++ repr (PDict state_issue)
  | VerifyBgpIpv6UnicastState =>
      "Some IPv6 Unicast BGP Peer are not up: " ++ repr (PDict state_issue)
  | _ => ""
  end.

(** No peer listed in the summary has an issue. *)
Definition no_peer_issue (d : list (pyval * pyval)) : Prop :=
  forall v p, peer_listed d v p -> peer_has_issue (PDict d) (PStr v) (PStr p) = Ok false.

(** One of the two categories [verify_vxlan_config_sanity] looks at. *)
Definition sanity_category (category : pyval) : bool :=
  py_eq_str category "localVtep" || py_eq_str category "mlag".

(** A category that makes the config-sanity check fail. *)
Definition category_fails (kv : pyval * pyval) : bool :=
  sanity_category (fst kv) &&
  match py_getitem (snd kv) (PStr "allCheckPass") with
  | Ok v => is_not_True v
  | Raise _ => false
  end.

(** The two categories, where listed, say whether their checks pass. *)
Definition categories_well_formed (d : list (pyval * pyval)) : bool :=
  forallb (fun kv => negb (sanity_category (fst kv)) || has_key "allCheckPass" (snd kv)) d.

(** Every entry of [state_issue] is that of a peer with an issue. *)
Definition only_issues (bgp_vrfs : pyval) (state_issue : list (pyval * pyval)) : Prop :=
  forall v dv p E,
    dict_get (PStr v) state_issue = Some (PDict dv) ->
    dict_get (PStr p) dv = Some E ->
    peer_has_issue bgp_vrfs (PStr v) (PStr p) = Ok true /\
    peer_issue_entry bgp_vrfs (PStr v) (PStr p) = Ok E.

(** What the loops of the state checks keep true of [state_issue]. *)
Definition issues_sound (bgp_vrfs : pyval) (state_issue : list (pyval * pyval)) : Prop :=
  all_dicts state_issue /\ only_issues bgp_vrfs state_issue.

(** The dict of the failing categories, built in the order of the answer. *)
Definition failing_categories (d : list (pyval * pyval)) : list (pyval * pyval) :=
  fold_left (fun acc kv => dict_set (fst kv) (snd kv) acc) (filter category_fails d) [].

(** The characters of a text, one string each. *)
Fixpoint characters (s : string) : list string :=
  match s with
  | EmptyString => []
  | String c r => String c "" :: characters r
  end.

(** *** More sample devices *)

(** The default VRF with one established and one idle peer. *)
Definition one_of_two_established : InventoryDevice :=
  answering "leaf1"
    (bgp_summary [("default", [("10.0.0.1", bgp_peer "Established" 0 0);
                               ("10.0.0.2", bgp_peer "Idle" 0 0)])]).

(** A summary without the default VRF. *)
Definition only_prod_vrf : InventoryDevice :=
  answering "leaf1" (bgp_summary [("PROD", [("10.0.0.1", bgp_peer "Established" 0 0)])]).

(** Config sanity with a failing category the check does not look at. *)
Definition sanity_categories : list (pyval * pyval) :=
  [(PStr "localVtep", obj [("allCheckPass", PBool true)]);
   (PStr "pd", obj [("allCheckPass", PBool false)])].

Definition sanity_response : pyval := PList [obj [("categories", PDict sanity_categories)]].

Definition sanity_device : InventoryDevice := answering "leaf1" sanity_response.

(** A device that runs EOS 4.27.0F with TerminAttr v1.17.0. *)
Definition version_response : pyval :=
  PList [obj [("version", PStr "4.27.0F");
              ("details", obj [("packages",
                obj [("TerminAttr-core", obj [("version", PStr "v1.17.0")])])])]].

Definition running_4_27 : InventoryDevice := answering "leaf1" version_response.

(** Vxlan1 up, in an answer that spells the second field the way
    [verify_vxlan] reads it. *)
Definition vxlan1_up_as_read : InventoryDevice :=
  answering "leaf1"
    (PList [obj [("interfaceDescriptions",
                  obj [("Vxlan1", obj [("lineProtocolStatus", PStr "up");
                                       ("intefraceStatus", PStr "up")])])]]).

(** The VRFs and the peers of the samples above. *)
Definition two_vrfs : list (pyval * pyval) :=
  [(PStr "default", obj [("peers", obj [("10.0.0.1", bgp_peer "Established" 0 0)])]);
   (PStr "PROD", obj [("peers", obj [("10.0.0.2", bgp_peer "Active" 0 4)])])].

Definition two_peers : list (pyval * pyval) :=
  [(PStr "10.0.0.1", bgp_peer "Established" 0 0); (PStr "10.0.0.2", bgp_peer "Idle" 0 0)].

(** * Properties *)

(** ** Text and dicts *)

Lemma append_assoc (a b c : string) : (a ++ b) ++ c = a ++ (b ++ c).
Proof. induction a as [|x a IH]; simpl; [reflexivity|now rewrite IH]. Qed.

Lemma append_nil_r (a : string) : a ++ "" = a.
Proof. induction a as [|x a IH]; simpl; [reflexivity|now rewrite IH]. Qed.

Lemma key_eqb_str k s : key_eqb k (PStr s) = true <-> k = PStr s.
Proof.
  destruct k; simpl; split; intros H; try discriminate.
  - apply String.eqb_eq in H. now subst.
  - injection H as ->. apply String.eqb_refl.
Qed.

Lemma dict_get_set_same s v d : dict_get (PStr s) (dict_set (PStr s) v d) = Some v.
Proof.
  induction d as [|[k x] d IH]; simpl.
  - now rewrite String.eqb_refl.
  - destruct (key_eqb k (PStr s)) eqn:E; simpl; rewrite E; auto.
Qed.

Lemma dict_get_set_other a b v d :
  a <> b -> dict_get (PStr a) (dict_set (PStr b) v d) = dict_get (PStr a) d.
Proof.
  intros Hab. induction d as [|[k x] d IH]; simpl.
  - destruct (String.eqb b a) eqn:E; auto. apply String.eqb_eq in E. congruence.
  - destruct (key_eqb k (PStr b)) eqn:E; simpl.
    + apply key_eqb_str in E. subst k. simpl.
      destruct (String.eqb b a) eqn:E'; auto. apply String.eqb_eq in E'. congruence.
    + destruct (key_eqb k (PStr a)); auto.
Qed.

Lemma dict_get_setdefault_other a b v d :
  a <> b -> dict_get (PStr a) (dict_setdefault (PStr b) v d) = dict_get (PStr a) d.
Proof.
  intros Hab. unfold dict_setdefault. destruct (dict_get (PStr b) d); auto.
  induction d as [|[k x] d IH]; simpl.
  - destruct (String.eqb b a) eqn:E; auto. apply String.eqb_eq in E. congruence.
  - destruct (key_eqb k (PStr a)); auto.
Qed.

Lemma dict_get_setdefault_same s v d :
  dict_get (PStr s) (dict_setdefault (PStr s) v d)
  = match dict_get (PStr s) d with Some x => Some x | None => Some v end.
Proof.
  unfold dict_setdefault. destruct (dict_get (PStr s) d) eqn:E; auto.
  induction d as [|[k x] d IH]; simpl in *.
  - now rewrite String.eqb_refl.
  - destruct (key_eqb k (PStr s)); [discriminate|auto].
Qed.

Lemma dict_get_In k d x :
  dict_get k d = Some x -> exists k', In (k', x) d /\ key_eqb k' k = true.
Proof.
  induction d as [|[k' x'] d IH]; cbn [dict_get]; [discriminate|].
  destruct (key_eqb k' k) eqn:E.
  - intros [= ->]. exists k'. split; [now left|assumption].
  - intros H. destruct (IH H) as (k'' & Hin & Hk). exists k''. split; [now right|assumption].
Qed.

Lemma dict_get_In_keys s d x : dict_get (PStr s) d = Some x -> In (PStr s) (dict_keys d).
Proof.
  intros H. destruct (dict_get_In _ _ _ H) as (k' & Hk' & Hkey).
  apply key_eqb_str in Hkey. subst k'. unfold dict_keys. apply in_map_iff.
  exists (PStr s, x). auto.
Qed.

Lemma In_dict_get s x d : In (PStr s, x) d -> exists x', dict_get (PStr s) d = Some x'.
Proof.
  induction d as [|[k' x'] d IH]; cbn [In dict_get]; [tauto|].
  intros [H|H].
  - injection H as -> ->. cbn [key_eqb]. rewrite String.eqb_refl. eauto.
  - destruct (key_eqb k' (PStr s)); eauto.
Qed.

Lemma In_keys_dict_get s d :
  In (PStr s) (dict_keys d) -> exists x, dict_get (PStr s) d = Some x.
Proof.
  unfold dict_keys. rewrite in_map_iff. intros ([k x] & Hk & Hin). cbn in Hk. subst k.
  eapply In_dict_get; eauto.
Qed.

Lemma repr_dict d : repr (PDict d) = "{" ++ repr_pairs d ++ "}".
Proof. reflexivity. Qed.

(** The text of a dict shows each of its keys next to its value. *)
Lemma repr_pairs_mentions k x d :
  dict_get (PStr k) d = Some x ->
  exists before after, repr_pairs d = before ++ repr (PStr k) ++ ": " ++ repr x ++ after.
Proof.
  induction d as [|[k' x'] d IH]; cbn [dict_get]; [discriminate|].
  destruct (key_eqb k' (PStr k)) eqn:E.
  - intros [= ->]. apply key_eqb_str in E. subst k'.
    destruct d as [|p d'].
    + exists "", "". cbn [repr_pairs]. rewrite append_nil_r. reflexivity.
    + exists "", (", " ++ repr_pairs (p :: d')). reflexivity.
  - intros H. destruct (IH H) as (b & a & Hba).
    destruct d as [|p d']; [discriminate|].
    exists (repr k' ++ ": " ++ repr x' ++ ", " ++ b), a.
    change (repr_pairs ((k', x') :: p :: d'))
      with (repr k' ++ ": " ++ repr x' ++ ", " ++ repr_pairs (p :: d')).
    rewrite Hba. now rewrite !append_assoc.
Qed.

Lemma forallb_str_keys {check : pyval -> bool} ps x :
  forallb (fun kv => is_str (fst kv) && check (snd kv)) ps = true ->
  In x (dict_keys ps) -> exists p, x = PStr p.
Proof.
  intros Hwf Hin. unfold dict_keys in Hin. apply in_map_iff in Hin as ([k y] & <- & Hin).
  rewrite forallb_forall in Hwf. specialize (Hwf _ Hin). cbn [fst snd] in *.
  apply andb_true_iff in Hwf as [Hs _]. destruct k; try discriminate. eauto.
Qed.

(** Reading through a key that is present gives a value that is listed. *)
Lemma forallb_dict_get {check : pyval -> bool} ps s x :
  forallb (fun kv => is_str (fst kv) && check (snd kv)) ps = true ->
  dict_get (PStr s) ps = Some x -> check x = true.
Proof.
  intros Hwf Hx. destruct (dict_get_In _ _ _ Hx) as (k' & Hk' & _).
  rewrite forallb_forall in Hwf. specialize (Hwf _ Hk'). cbn [fst snd] in Hwf.
  now apply andb_true_iff in Hwf as [_ Hwf].
Qed.

(** ** Running statements *)

Ltac unfold_stmt :=
  cbv beta iota zeta delta
    [run outcome final start bind ret lift try_except runCmds new_result set_result
     append_message get_result set_status is_success is_failure is_skipped is_error
     report_error record_error check_bgp_family_enable fn44_failure
     this_result calls status_log result messages host test fst snd app].

(** Case analysis on the innermost value a statement branches on. *)
Ltac inner_destruct t :=
  lazymatch t with
  | context [match ?y with _ => _ end] => inner_destruct y
  | _ => destruct t eqn:?
  end.

Ltac split_stmt :=
  repeat (unfold_stmt;
          match goal with
          | |- context [match ?x with _ => _ end] => inner_destruct x
          end);
  unfold_stmt.

(** ** The BGP state checks *)

Lemma wf_vrf_lookup d v :
  vrfs_well_formed (PDict d) = true -> In (PStr v) (dict_keys d) ->
  exists e ps, dict_get (PStr v) d = Some e /\ py_getitem e (PStr "peers") = Ok (PDict ps) /\
    forallb (fun kv => is_str (fst kv) && peer_well_formed (snd kv)) ps = true.
Proof.
  cbn [vrfs_well_formed]. intros Hwf Hin.
  destruct (In_keys_dict_get _ _ Hin) as (e & He).
  pose proof (forallb_dict_get _ _ _ Hwf He) as Hv. unfold vrf_well_formed in Hv.
  destruct (py_getitem e (PStr "peers")) as [peers|] eqn:Hp; [|discriminate].
  destruct peers; try discriminate. cbn [peers_well_formed] in Hv. eauto.
Qed.

Lemma wf_peer_known d v ps e p :
  dict_get (PStr v) d = Some e -> py_getitem e (PStr "peers") = Ok (PDict ps) ->
  forallb (fun kv => is_str (fst kv) && peer_well_formed (snd kv)) ps = true ->
  In (PStr p) (dict_keys ps) ->
  peer_known (PDict d) v p.
Proof.
  intros He Hps Hwf Hin.
  destruct (In_keys_dict_get _ _ Hin) as (x & Hx).
  pose proof (forallb_dict_get _ _ _ Hwf Hx) as Hp. unfold peer_well_formed, has_key in Hp.
  apply andb_true_iff in Hp as [Hp H3]. apply andb_true_iff in Hp as [H1 H2].
  unfold peer_known, peer_field, subscript. cbn [res_bind py_getitem hashable].
  rewrite He. cbn [res_bind]. rewrite Hps. cbn [res_bind py_getitem hashable]. rewrite Hx.
  cbn [res_bind].
  destruct (py_getitem x (PStr "peerState")) as [st|]; [|discriminate].
  destruct (py_getitem x (PStr "inMsgQueue")) as [i|]; [|discriminate].
  destruct (py_getitem x (PStr "outMsgQueue")) as [o|]; [|discriminate].
  exists st, i, o. repeat split.
Qed.

Section StateIssue.

Variable bgp_vrfs : pyval.

Lemma peer_known_has_issue v p :
  peer_known bgp_vrfs v p -> exists b, peer_has_issue bgp_vrfs (PStr v) (PStr p) = Ok b.
Proof.
  intros (st & i & o & H1 & H2 & H3). unfold peer_has_issue.
  rewrite H1, H2, H3. cbn [res_bind].
  destruct (negb (py_eq_str st "Established")); eauto.
  destruct (negb (py_eq_int i 0)); eauto.
Qed.

Lemma peer_known_entry v p :
  peer_known bgp_vrfs v p -> exists E, peer_issue_entry bgp_vrfs (PStr v) (PStr p) = Ok E.
Proof.
  intros (st & i & o & H1 & H2 & H3). unfold peer_issue_entry.
  rewrite H1, H2, H3. cbn [res_bind]. eauto.
Qed.

(** One turn of the inner loop keeps what was recorded and records the
    peer it visits when that peer has an issue. *)
Lemma record_peer_issue_step v p acc :
  peer_known bgp_vrfs v p -> all_dicts acc ->
  exists acc',
    record_peer_issue bgp_vrfs (PStr v) acc (PStr p) = Ok acc' /\
    all_dicts acc' /\
    (forall v0 p0, reported bgp_vrfs acc v0 p0 -> reported bgp_vrfs acc' v0 p0) /\
    (peer_has_issue bgp_vrfs (PStr v) (PStr p) = Ok true -> reported bgp_vrfs acc' v p).
Proof.
  intros Hk Hacc.
  destruct (peer_known_has_issue _ _ Hk) as (b & Hb).
  destruct (peer_known_entry _ _ Hk) as (E & HE).
  unfold record_peer_issue. rewrite Hb. cbn [res_bind].
  destruct b.
  2:{ exists acc. repeat split; auto. discriminate. }
  cbn [require_hashable hashable res_bind]. rewrite HE. cbn [res_bind].
  eexists. split; [reflexivity|].
  set (acc1 := dict_setdefault (PStr v) (PDict []) acc).
  assert (Hget1 : exists vd, dict_get (PStr v) acc1 = Some (PDict vd) /\
            (forall d, dict_get (PStr v) acc = Some (PDict d) -> vd = d)).
  { unfold acc1. rewrite dict_get_setdefault_same.
    destruct (dict_get (PStr v) acc) as [x|] eqn:Hx.
    - destruct (Hacc _ _ Hx) as (d & ->). exists d. split; auto. now intros d' [= ->].
    - exists []. split; auto. discriminate. }
  destruct Hget1 as (vd & Hvd & Hsame). rewrite Hvd.
  split; [|split].
  - intros s x. destruct (String.eqb_spec s v) as [->|Hne].
    + rewrite dict_get_set_same. intros [= <-]. eauto.
    + rewrite dict_get_set_other by assumption. unfold acc1.
      rewrite dict_get_setdefault_other by assumption. apply Hacc.
  - intros v0 p0 (d & E0 & Hd & Hp & HE0).
    destruct (String.eqb_spec v0 v) as [->|Hne].
    + specialize (Hsame _ Hd). subst vd.
      destruct (String.eqb_spec p0 p) as [->|Hnp].
      * exists (dict_set (PStr p) E d), E. rewrite !dict_get_set_same. auto.
      * exists (dict_set (PStr p) E d), E0. rewrite dict_get_set_same.
        rewrite dict_get_set_other by assumption. auto.
    + exists d, E0. rewrite dict_get_set_other by assumption. unfold acc1.
      rewrite dict_get_setdefault_other by assumption. auto.
  - intros _. exists (dict_set (PStr p) E vd), E. rewrite !dict_get_set_same. auto.
Qed.

Lemma record_peers_loop v peers : forall acc,
  (forall x, In x peers -> exists p, x = PStr p /\ peer_known bgp_vrfs v p) ->
  all_dicts acc ->
  exists acc',
    for_res peers acc (record_peer_issue bgp_vrfs (PStr v)) = Ok acc' /\
    all_dicts acc' /\
    (forall v0 p0, reported bgp_vrfs acc v0 p0 -> reported bgp_vrfs acc' v0 p0) /\
    (forall p, In (PStr p) peers -> peer_has_issue bgp_vrfs (PStr v) (PStr p) = Ok true ->
               reported bgp_vrfs acc' v p).
Proof.
  induction peers as [|x peers IH]; intros acc Hall Hacc.
  - exists acc. cbn. repeat split; auto. tauto.
  - destruct (Hall x (or_introl eq_refl)) as (p & -> & Hk).
    destruct (record_peer_issue_step v p acc Hk Hacc) as (acc1 & Hstep & Hd1 & Hkeep1 & Hnew1).
    destruct (IH acc1 (fun y Hy => Hall y (or_intror Hy)) Hd1)
      as (acc2 & Hloop & Hd2 & Hkeep2 & Hnew2).
    exists acc2. cbn [for_res]. rewrite Hstep. cbn [res_bind].
    split; [assumption|]. split; [assumption|]. split.
    + auto.
    + intros p0 [Heq|Hin] Hissue.
      * injection Heq as <-. auto.
      * auto.
Qed.

End StateIssue.

Section StateIssueVrfs.

Variable d : list (pyval * pyval).
Hypothesis Hwf : vrfs_well_formed (PDict d) = true.

Lemma record_vrf_step v acc :
  In (PStr v) (dict_keys d) -> all_dicts acc ->
  exists acc',
    record_vrf_issues (PDict d) acc (PStr v) = Ok acc' /\
    all_dicts acc' /\
    (forall v0 p0, reported (PDict d) acc v0 p0 -> reported (PDict d) acc' v0 p0) /\
    (forall p, peer_listed d v p -> peer_has_issue (PDict d) (PStr v) (PStr p) = Ok true ->
               reported (PDict d) acc' v p).
Proof.
  intros Hin Hacc.
  destruct (wf_vrf_lookup _ _ Hwf Hin) as (e & ps & He & Hps & Hpwf).
  unfold record_vrf_issues, subscript. cbn [res_bind py_getitem hashable]. rewrite He.
  cbn [res_bind]. rewrite Hps. cbn [res_bind py_iter].
  destruct (record_peers_loop (PDict d) v (dict_keys ps) acc)
    as (acc' & Hloop & Hd & Hkeep & Hnew); [|assumption|].
  - intros x Hx. destruct (forallb_str_keys _ _ Hpwf Hx) as (p & ->).
    exists p. split; [reflexivity|]. eapply wf_peer_known; eauto.
  - exists acc'. repeat split; auto.
    intros p (e' & ps' & He' & Hps' & Hin') Hissue.
    rewrite He in He'. injection He' as <-. rewrite Hps in Hps'. injection Hps' as <-.
    auto.
Qed.

Lemma record_vrfs_loop vrfs : forall acc,
  (forall x, In x vrfs -> exists v, x = PStr v /\ In (PStr v) (dict_keys d)) ->
  all_dicts acc ->
  exists acc',
    for_res vrfs acc (record_vrf_issues (PDict d)) = Ok acc' /\
    all_dicts acc' /\
    (forall v0 p0, reported (PDict d) acc v0 p0 -> reported (PDict d) acc' v0 p0) /\
    (forall v p, In (PStr v) vrfs -> peer_listed d v p ->
                 peer_has_issue (PDict d) (PStr v) (PStr p) = Ok true ->
                 reported (PDict d) acc' v p).
Proof.
  induction vrfs as [|x vrfs IH]; intros acc Hall Hacc.
  - exists acc. cbn. repeat split; auto. tauto.
  - destruct (Hall x (or_introl eq_refl)) as (v & -> & Hin).
    destruct (record_vrf_step v acc Hin Hacc) as (acc1 & Hstep & Hd1 & Hkeep1 & Hnew1).
    destruct (IH acc1 (fun y Hy => Hall y (or_intror Hy)) Hd1)
      as (acc2 & Hloop & Hd2 & Hkeep2 & Hnew2).
    exists acc2. cbn [for_res]. rewrite Hstep. cbn [res_bind].
    split; [assumption|]. split; [assumption|]. split.
    + auto.
    + intros v0 p0 [Heq|Hin0] Hl Hissue.
      * injection Heq as <-. auto.
      * eauto.
Qed.

(** On a well-formed summary the two loops end, and every listed peer
    with an issue is in [state_issue] under its VRF. *)
Lemma collect_state_issue_reports :
  exists state_issue,
    collect_state_issue (PDict d) = Ok (PDict state_issue) /\
    forall v p, peer_listed d v p -> peer_has_issue (PDict d) (PStr v) (PStr p) = Ok true ->
                reported (PDict d) state_issue v p.
Proof.
  unfold collect_state_issue. cbn [py_iter res_bind].
  destruct (record_vrfs_loop (dict_keys d) []) as (si & Hloop & _ & _ & Hnew).
  - intros x Hx. cbn [vrfs_well_formed] in Hwf.
    destruct (forallb_str_keys _ _ Hwf Hx) as (v & ->). eauto.
  - intros s x. discriminate.
  - exists si. rewrite Hloop. cbn [res_bind]. split; [reflexivity|].
    intros v p Hl Hissue. apply Hnew; auto.
    destruct Hl as (e & ps & He & _). eapply dict_get_In_keys; eauto.
Qed.

(** A peer whose state can be read is listed under its VRF. *)
Lemma peer_field_listed vrf peer field x :
  peer_field (PDict d) (PStr vrf) (PStr peer) field = Ok x -> peer_listed d vrf peer.
Proof.
  intros Hst.
  unfold peer_field, subscript in Hst. cbn [res_bind py_getitem hashable] in Hst.
  destruct (dict_get (PStr vrf) d) as [e|] eqn:He; [|discriminate].
  cbn [res_bind] in Hst.
  destruct (wf_vrf_lookup _ _ Hwf (dict_get_In_keys _ _ _ He)) as (e' & ps & He' & Hps & _).
  rewrite He in He'. injection He' as <-. rewrite Hps in Hst.
  cbn [res_bind py_getitem hashable] in Hst.
  destruct (dict_get (PStr peer) ps) as [y|] eqn:Hy; [|discriminate].
  exists e, ps. repeat split; auto. eapply dict_get_In_keys; eauto.
Qed.

End StateIssueVrfs.

(** The [try] block of a state check, on a well-formed summary in which
    peer [peer] of VRF [vrf] is not established: the status becomes
    failure and the message shows the VRF, then the peer with its state
    and the two queue depths. *)
Lemma unicast_state_try_reports family_name command device response d vrf peer
  state inq outq s0 :
  session device (mkCommand 1 [command] "json") = Ok response ->
  Ok response !! PInt 0 !! PStr "vrfs" = Ok (PDict d) ->
  vrfs_well_formed (PDict d) = true ->
  peer_field (PDict d) (PStr vrf) (PStr peer) "peerState" = Ok state ->
  peer_field (PDict d) (PStr vrf) (PStr peer) "inMsgQueue" = Ok inq ->
  peer_field (PDict d) (PStr vrf) (PStr peer) "outMsgQueue" = Ok outq ->
  py_eq_str state "Established" = false ->
  exists before between after,
    unicast_state_try family_name command device s0 =
    (Ok tt,
     mkExec (mkTestResult (host (this_result s0)) (test (this_result s0)) Failure
               (messages (this_result s0) ++
                ["Some " ++ family_name ++ " Unicast BGP Peer are not up: " ++ before
                   ++ repr (PStr vrf) ++ ": {" ++ between ++ repr (PStr peer) ++ ": "
                   ++ repr (issue_entry state inq outq) ++ after]))
            (calls s0 ++ [mkCommand 1 [command] "json"])
            (status_log s0 ++ [Failure])).
Proof.
  intros Hsess Hvrfs Hwf Hst Hin Hout Hne.
  destruct (collect_state_issue_reports d Hwf) as (si & Hsi & Hrep).
  pose proof (peer_field_listed d Hwf _ _ _ _ Hst) as Hl.
  assert (Hissue : peer_has_issue (PDict d) (PStr vrf) (PStr peer) = Ok true).
  { unfold peer_has_issue. rewrite Hst. cbn [res_bind]. now rewrite Hne. }
  destruct (Hrep _ _ Hl Hissue) as (vd & E & Hvd & HE & Hentry).
  unfold peer_issue_entry in Hentry. rewrite Hst, Hin, Hout in Hentry. cbn [res_bind] in Hentry.
  injection Hentry as <-.
  destruct (repr_pairs_mentions _ _ _ Hvd) as (b1 & a1 & H1).
  destruct (repr_pairs_mentions _ _ _ HE) as (b2 & a2 & H2).
  exists ("{" ++ b1), b2, (a2 ++ "}" ++ a1 ++ "}").
  unfold unicast_state_try. unfold_stmt. rewrite Hsess. unfold_stmt.
  rewrite Hvrfs. unfold_stmt. rewrite Hsi. unfold_stmt.
  assert (Ht : truthy (PDict si) = true).
  { destruct si; [discriminate|reflexivity]. }
  rewrite Ht. cbn [negb]. unfold_stmt.
  rewrite repr_dict, H1, repr_dict, H2.
  fold (issue_entry state inq outq).
  match goal with
  | |- context [String.eqb ?m ""] => destruct (String.eqb_spec m "") as [Hm|Hm]
  end.
  - exfalso. revert Hm. cbn [append]. discriminate.
  - do 3 f_equal. f_equal. f_equal.
    rewrite !append_assoc. cbn [append]. reflexivity.
Qed.

Lemma repr_issue_entry state inq outq :
  repr (issue_entry state inq outq)
  = "{'peerState': " ++ repr state ++ ", 'inMsgQueue': " ++ repr inq
      ++ ", 'outMsgQueue': " ++ repr outq ++ "}".
Proof.
  unfold issue_entry. rewrite repr_dict. cbn [repr_pairs].
  rewrite !append_assoc. reflexivity.
Qed.

(** ** Case analysis of a whole check *)

Ltac unfold_all :=
  cbv beta iota zeta delta
    [run outcome final start bind ret lift try_except runCmds new_result set_result
     append_message get_result set_status is_success is_failure is_skipped is_error
     report_error record_error check_bgp_family_enable fn44_failure
     caught_bgp caught_software orb andb negb
     this_result calls status_log result messages host test fst snd app];
  cbn [String.eqb].

Ltac split_all :=
  repeat (unfold_all;
          match goal with
          | |- context [match ?x with _ => _ end] => inner_destruct x
          end);
  unfold_all.

Ltac unfold_checks :=
  unfold verify_bgp_ipv4_unicast_state, verify_bgp_ipv4_unicast_count,
    verify_bgp_ipv6_unicast_state, verify_bgp_evpn_state, verify_bgp_evpn_count,
    verify_bgp_rtc_state, verify_bgp_rtc_count, verify_vxlan, verify_vxlan_config_sanity,
    verify_eos_version, verify_terminattr_version, verify_field_notice_44_resolution.

Ltac unfold_tries :=
  unfold verify_bgp_ipv4_unicast_state_try, verify_bgp_ipv6_unicast_state_try,
    unicast_state_try, verify_bgp_ipv4_unicast_count_try, verify_bgp_evpn_state_try,
    verify_bgp_evpn_count_try, verify_bgp_rtc_state_try, verify_bgp_rtc_count_try,
    verify_vxlan_try, verify_vxlan_config_sanity_try, verify_eos_version_try,
    verify_terminattr_version_try, verify_field_notice_44_resolution_try.

(** ** What the Aboot comparison can raise *)

Lemma list_item_raises xs i e : list_item xs i = Raise e -> caught_software e = false.
Proof.
  unfold list_item. destruct (seq_index i _); [destruct (nth_error xs n)|]; intros H;
    try discriminate; now injection H as <-.
Qed.

Lemma py_int_raises s e : py_int s = Raise e -> caught_software e = false.
Proof.
  unfold py_int. destruct (strip is_space s) as [|c r]; [intros H; now injection H as <-|].
  repeat match goal with
  | |- context [if ?b then _ else _] => destruct b
  | |- context [match parse_digits ?a ?b ?c with _ => _ end] => destruct (parse_digits a b c)
  end; intros H; try discriminate; now injection H as <-.
Qed.

(** Once the status is success, the comparisons of lines 206-218 raise
    nothing the [except] clause names: an [IndexError] or a [ValueError]
    leaves the function. *)
Lemma aboot_older_raises v p b e : aboot_older v p b = Raise e -> caught_software e = false.
Proof.
  unfold aboot_older. destruct (is_prefix p v); [|discriminate].
  destruct (list_item (str_split "." v) 2) as [part|e'] eqn:Hl; cbn [res_bind].
  - destruct (py_int part) as [n|e'] eqn:Hn; cbn [res_bind]; [discriminate|].
    intros [= <-]. eapply py_int_raises; eauto.
  - intros [= <-]. eapply list_item_raises; eauto.
Qed.

Ltac no_caught :=
  match goal with
  | H : aboot_older _ _ _ = Raise _ |- _ => apply aboot_older_raises in H; discriminate H
  end.

(** ** The peer-count comprehension on healthy peers *)

Section HealthyPeers.

Variables (bgp_vrfs : pyval) (vrf : string) (ps : list (pyval * pyval)).
Hypothesis Hpeers : Ok bgp_vrfs !! PStr vrf !! PStr "peers" = Ok (PDict ps).
Hypothesis Hhealthy : peers_well_formed peer_healthy (PDict ps) = true.

Lemma healthy_peer_has_no_issue p :
  In (PStr p) (dict_keys ps) -> peer_has_issue bgp_vrfs (PStr vrf) (PStr p) = Ok false.
Proof.
  intros Hin. destruct (In_keys_dict_get _ _ Hin) as (x & Hx).
  cbn [peers_well_formed] in Hhealthy.
  pose proof (forallb_dict_get _ _ _ Hhealthy Hx) as Hh. unfold peer_healthy in Hh.
  unfold peer_has_issue, peer_field. rewrite Hpeers.
  unfold subscript. cbn [res_bind py_getitem hashable]. rewrite Hx. cbn [res_bind].
  destruct (py_getitem x (PStr "peerState")) as [st|]; [|discriminate].
  destruct (py_getitem x (PStr "inMsgQueue")) as [i|]; [|discriminate].
  destruct (py_getitem x (PStr "outMsgQueue")) as [o|]; [|discriminate].
  apply andb_true_iff in Hh as [Hh Ho]. apply andb_true_iff in Hh as [Hs Hi].
  cbn [res_bind]. rewrite Hs. cbn [negb]. rewrite Hi. cbn [negb]. now rewrite Ho.
Qed.

(** With every peer healthy the comprehension of lines 128-140 is the
    empty dict. *)
Lemma collect_peer_state_issue_healthy :
  collect_peer_state_issue bgp_vrfs (PStr vrf) = Ok (PDict []).
Proof.
  unfold collect_peer_state_issue. rewrite Hpeers. cbn [res_bind py_iter].
  assert (Hloop : forall keys, (forall x, In x keys -> In x (dict_keys ps)) ->
            for_res keys [] (keep_peer_issue bgp_vrfs (PStr vrf)) = Ok []).
  { induction keys as [|k keys IH]; intros Hsub; [reflexivity|].
    cbn [for_res]. cbn [peers_well_formed] in Hhealthy.
    destruct (forallb_str_keys _ _ Hhealthy (Hsub k (or_introl eq_refl))) as (p & ->).
    unfold keep_peer_issue at 1.
    rewrite healthy_peer_has_no_issue by (apply Hsub; now left).
    cbn [res_bind]. apply IH. intros x Hx. apply Hsub. now right. }
  rewrite Hloop by auto. reflexivity.
Qed.

End HealthyPeers.
Section Decorated.

Variable enabled : string -> InventoryDevice -> bool.
Variable skip_message : string -> string.

(** C7.  [verify_bgp_ipv4_unicast_state] on a response with two VRFs in
    which a peer is not Established: the result is a failure, and its one
    message shows the VRF, then the peer followed by its state and its
    in and out queue depths. *)
Theorem bgp_state_failure_names_peer device response v1 e1 v2 e2 vrf peer state inq outq :
  let bgp_vrfs := PDict [(PStr v1, e1); (PStr v2, e2)] in
  enabled "ipv4" device = true ->
  session device (mkCommand 1 ["show bgp ipv4 unicast summary vrf all"] "json") = Ok response ->
  Ok response !! PInt 0 !! PStr "vrfs" = Ok bgp_vrfs ->
  vrfs_well_formed bgp_vrfs = true ->
  peer_field bgp_vrfs (PStr vrf) (PStr peer) "peerState" = Ok state ->
  peer_field bgp_vrfs (PStr vrf) (PStr peer) "inMsgQueue" = Ok inq ->
  peer_field bgp_vrfs (PStr vrf) (PStr peer) "outMsgQueue" = Ok outq ->
  py_eq_str state "Established" = false ->
  exists r s before between after,
    run (verify_bgp_ipv4_unicast_state enabled skip_message device) = (Ok r, s) /\
    result r = Failure /\
    messages r =
      ["Some IPv4 Unicast BGP Peer are not up: " ++ before
         ++ repr (PStr vrf) ++ ": {" ++ between
         ++ repr (PStr peer) ++ ": "
         ++ "{'peerState': " ++ repr state ++ ", 'inMsgQueue': " ++ repr inq
         ++ ", 'outMsgQueue': " ++ repr outq ++ "}" ++ after].
Proof.
  intros bgp_vrfs Hen Hsess Hvrfs Hwf Hst Hin Hout Hne.
  unfold run, verify_bgp_ipv4_unicast_state, check_bgp_family_enable. rewrite Hen.
  unfold verify_bgp_ipv4_unicast_state_try.
  set (s0 := mkExec (mkTestResult (device_host device) "verify_bgp_ipv4_unicast_state" Unset [])
                    [] []).
  destruct (unicast_state_try_reports "IPv4" _ device response _ vrf peer state inq outq s0
              Hsess Hvrfs Hwf Hst Hin Hout Hne) as (before & between & after & Hrun).
  eexists _, _, before, between, after.
  cbv beta iota zeta delta [bind new_result try_except get_result start this_result calls
                            status_log fst snd].
  fold s0. rewrite Hrun. cbv beta iota. split; [reflexivity|]. split; [reflexivity|].
  cbn [messages this_result s0 app]. rewrite repr_issue_entry.
  f_equal. rewrite !append_assoc. reflexivity.
Qed.

(** C9.  [verify_vxlan] reads the field [intefraceStatus].  A response
    whose Vxlan1 entry has [lineProtocolStatus] and [interfaceStatus] but
    no [intefraceStatus] makes the lookup fail; the failure is caught and
    the result is an error, whatever the two statuses are. *)
Theorem vxlan_misspelt_field_is_error device response descr entry line_status iface_status :
  session device (mkCommand 1 ["show interfaces description"] "json") = Ok response ->
  Ok response !! PInt 0 !! PStr "interfaceDescriptions" = Ok (PDict descr) ->
  dict_get (PStr "Vxlan1") descr = Some (PDict entry) ->
  dict_get (PStr "lineProtocolStatus") entry = Some line_status ->
  dict_get (PStr "interfaceStatus") entry = Some iface_status ->
  dict_get (PStr "intefraceStatus") entry = None ->
  exists r s,
    run (verify_vxlan device) = (Ok r, s) /\
    result r = Error /\
    messages r = ["'intefraceStatus'"] /\
    result r <> Success.
Proof.
  intros Hsess Hdescr Hvx Hline _ Hnone.
  assert (H1 : py_contains_str (PDict descr) "Vxlan1" = Ok true).
  { cbn [py_contains_str]. now rewrite Hvx. }
  assert (H2 : Ok (PDict descr) !! PStr "Vxlan1" !! PStr "lineProtocolStatus" = Ok line_status).
  { unfold subscript. cbn [res_bind py_getitem hashable]. rewrite Hvx.
    cbn [res_bind py_getitem hashable]. now rewrite Hline. }
  assert (H3 : Ok (PDict descr) !! PStr "Vxlan1" !! PStr "intefraceStatus"
               = Raise (KeyError (PStr "intefraceStatus"))).
  { unfold subscript. cbn [res_bind py_getitem hashable]. rewrite Hvx.
    cbn [res_bind py_getitem hashable]. now rewrite Hnone. }
  unfold verify_vxlan, verify_vxlan_try.
  repeat (unfold_stmt; rewrite ?Hsess, ?Hdescr, ?H1, ?H2, ?H3; cbn [negb]).
  cbn. eexists _, _. split; [reflexivity|]. cbn. repeat split; discriminate.
Qed.

(** C10.  An expected number of 0 is treated as no number at all: each
    of the three peer-count checks then returns the skipped result it
    returns without a number, with its could-not-run message, and sends
    no command. *)
Theorem zero_peers_expected_is_skipped device vrf :
  enabled "ipv4" device = true ->
  enabled "evpn" device = true ->
  enabled "rtc" device = true ->
  let ipv4 := verify_bgp_ipv4_unicast_count enabled skip_message device in
  let evpn := verify_bgp_evpn_count enabled skip_message device in
  let rtc := verify_bgp_rtc_count enabled skip_message device in
  let skipped := stopped (device_host device) in
  (run (ipv4 (Some 0) vrf) = run (ipv4 None vrf) /\
   run (ipv4 (Some 0) vrf) =
     skipped "verify_bgp_ipv4_unicast_count" Skipped
       "verify_bgp_ipv4_unicast_count could not run because number of vrf was not supplied") /\
  (run (evpn (Some 0)) = run (evpn None) /\
   run (evpn (Some 0)) =
     skipped "verify_bgp_evpn_count" Skipped
       "verify_bgp_evpn_count could not run because number was not supplied.") /\
  (run (rtc (Some 0)) = run (rtc None) /\
   run (rtc (Some 0)) =
     skipped "verify_bgp_rtc_count" Skipped
       "verify_bgp_rtc_count could not run because number was not supplied").
Proof.
  intros H4 He Hr.
  cbv zeta.
  unfold verify_bgp_ipv4_unicast_count, verify_bgp_evpn_count, verify_bgp_rtc_count,
    check_bgp_family_enable, run.
  rewrite H4, He, Hr. repeat split; reflexivity.
Qed.

(** X19, the healthy half of C6: [verify_bgp_ipv4_unicast_count] on a
    VRF whose peers are all established with empty queues succeeds when
    their number is the expected one, and otherwise fails with the
    message that gives both numbers. *)
Lemma ipv4_count_on_healthy_peers device number vrf response bgp_vrfs ps :
  enabled "ipv4" device = true ->
  number <> 0 ->
  vrf <> "" ->
  session device (mkCommand 1 ["show bgp ipv4 unicast summary vrf " ++ vrf] "json")
    = Ok response ->
  Ok response !! PInt 0 !! PStr "vrfs" = Ok bgp_vrfs ->
  Ok bgp_vrfs !! PStr vrf !! PStr "peers" = Ok (PDict ps) ->
  peers_well_formed peer_healthy (PDict ps) = true ->
  let peer_number := Z.of_nat (List.length ps) in
  outcome (verify_bgp_ipv4_unicast_count enabled skip_message device (Some number) (Some vrf))
  = Ok (mkTestResult (device_host device) "verify_bgp_ipv4_unicast_count"
          (if peer_number =? number then Success else Failure)
          (if peer_number =? number then []
           else ["Expecting " ++ string_of_Z number ++ " BGP peer in vrf " ++ vrf
                   ++ " and got " ++ string_of_Z peer_number])).
Proof.
  intros Hen Hnum Hvrf Hsess Hvrfs Hpeers Hhealthy peer_number.
  pose proof (collect_peer_state_issue_healthy _ _ _ Hpeers Hhealthy) as Hissue.
  unfold outcome, run, verify_bgp_ipv4_unicast_count, check_bgp_family_enable. rewrite Hen.
  cbn [not_int not_str int_value str_value].
  apply Z.eqb_neq in Hnum. rewrite Hnum. apply String.eqb_neq in Hvrf. rewrite Hvrf.
  cbn [orb]. unfold verify_bgp_ipv4_unicast_count_try.
  repeat (unfold_stmt; rewrite ?Hsess, ?Hvrfs, ?Hpeers, ?Hissue; cbn [res_bind py_len truthy orb]).
  fold peer_number. destruct (peer_number =? number); unfold_all; [reflexivity|].
  match goal with
  | |- context [String.eqb ?m ""] => destruct (String.eqb_spec m "") as [Hm|Hm]
  end.
  - exfalso. revert Hm. cbn [append]. discriminate.
  - reflexivity.
Qed.

(** C4, as amended.  A check called without its parameter sends no
    command and returns a result with one message that says so; the
    status is skipped for the three BGP peer-count checks and is left
    unset, by assignment, for the EOS and TerminAttr version checks. *)
Theorem absent_parameter_stops_check c device :
  parameter_absent c = true ->
  family_enabled_for enabled c device = true ->
  run (run_check enabled skip_message c device)
  = stopped (device_host device) (check_name c)
      (if in_software c then Unset else Skipped) (absent_message c).
Proof.
  intros Habs Hen.
  destruct c; try discriminate Habs; cbn [run_check]; unfold_checks;
    unfold family_enabled_for in Hen; cbn [check_family] in Hen;
    unfold check_bgp_family_enable; rewrite ?Hen.
  - destruct number as [n|]; destruct vrf as [v|]; try discriminate Habs;
      cbn [not_int not_str]; rewrite ?orb_true_r; reflexivity.
  - destruct number; [discriminate Habs|reflexivity].
  - destruct number; [discriminate Habs|reflexivity].
  - destruct versions; [discriminate Habs|reflexivity].
  - destruct versions; [discriminate Habs|reflexivity].
Qed.

(** A session that raises on the command of a check makes the [try]
    block raise the same exception, with nothing but the command sent. *)
Lemma session_failure_in_try c device e s0 :
  session device (check_command c) = Raise e ->
  check_try c device s0
  = (Raise e, mkExec (this_result s0) (calls s0 ++ [check_command c]) (status_log s0)).
Proof.
  intros Hsess. destruct c; unfold check_command in *; unfold check_try; unfold_tries;
    unfold_stmt; rewrite Hsess; reflexivity.
Qed.

(** Support for C8: in bgp.py and vxlan.py a time-out of the session is
    caught; the result is an error, the only status ever assigned, and
    the message is the text of the exception. *)
Lemma timeout_is_error c device text :
  in_software c = false ->
  family_enabled_for enabled c device = true ->
  parameters_supplied c = true ->
  session device (check_command c) = Raise (socket_timeout text) ->
  text <> "" ->
  exists r s,
    run (run_check enabled skip_message c device) = (Ok r, s) /\
    result r = Error /\
    messages r = [text] /\
    status_log s = [Error].
Proof.
  intros Hsoft Hen Hpar Hsess Htext.
  pose proof (session_failure_in_try c device _ (at_try c device) Hsess) as Htry.
  apply String.eqb_neq in Htext.
  destruct c; try discriminate Hsoft; cbn [run_check]; unfold_checks;
    unfold family_enabled_for in Hen; cbn [check_family] in Hen;
    unfold check_bgp_family_enable; rewrite ?Hen;
    cbn [parameters_supplied] in Hpar; try (apply negb_true_iff in Hpar; rewrite Hpar);
    unfold check_try, at_try in Htry; cbn [check_name] in Htry;
    unfold_stmt; rewrite Htry; unfold_stmt; cbn [caught_bgp str_exn]; rewrite Htext;
    unfold_stmt; eexists _, _; repeat split; reflexivity.
Qed.

(** C2, as amended.  In every check but
    [verify_field_notice_44_resolution] the status, once it has one of
    the four terminal values, is never assigned a different value.  The
    field-notice check assigns success before it compares versions and
    may then replace it by failure; nothing else replaces a terminal
    status there either. *)
Theorem status_moves_forward c device :
  follows (match c with
           | VerifyFieldNotice44Resolution => forward_or_retract
           | _ => forward
           end)
    Unset (status_log (final (run_check enabled skip_message c device))) = true.
Proof.
  destruct c; cbn [run_check]; unfold_checks; unfold_tries.
  all: split_all; try reflexivity; try no_caught.
Qed.

End Decorated.

Lemma dict_set_nonempty k v d : dict_set k v d <> [].
Proof. destruct d as [|[k' v'] d]; cbn [dict_set]; [|destruct (key_eqb k' k)]; discriminate. Qed.

(** ** The peer-count checks on any well-formed answer *)

Section CountedPeers.

Variables (bgp_vrfs : pyval) (vrf : string) (ps : list (pyval * pyval)).
Hypothesis Hpeers : Ok bgp_vrfs !! PStr vrf !! PStr "peers" = Ok (PDict ps).
Hypothesis Hwf : peers_well_formed peer_well_formed (PDict ps) = true.

Lemma counted_peer_field p x field :
  dict_get (PStr p) ps = Some x ->
  peer_field bgp_vrfs (PStr vrf) (PStr p) field = py_getitem x (PStr field).
Proof.
  intros Hx. unfold peer_field. rewrite Hpeers. unfold subscript.
  cbn [res_bind py_getitem hashable]. now rewrite Hx.
Qed.

Lemma counted_peer_known p : In (PStr p) (dict_keys ps) -> peer_known bgp_vrfs vrf p.
Proof.
  intros Hin. destruct (In_keys_dict_get _ _ Hin) as (x & Hx).
  cbn [peers_well_formed] in Hwf.
  pose proof (forallb_dict_get _ _ _ Hwf Hx) as Hp. unfold peer_well_formed, has_key in Hp.
  apply andb_true_iff in Hp as [Hp H3]. apply andb_true_iff in Hp as [H1 H2].
  unfold peer_known. rewrite !(counted_peer_field _ _ _ Hx).
  destruct (py_getitem x (PStr "peerState")) as [st|]; [|discriminate].
  destruct (py_getitem x (PStr "inMsgQueue")) as [i|]; [|discriminate].
  destruct (py_getitem x (PStr "outMsgQueue")) as [o|]; [|discriminate].
  exists st, i, o. repeat split.
Qed.

Lemma unhealthy_peer_has_issue p x :
  dict_get (PStr p) ps = Some x -> peer_healthy x = false ->
  peer_has_issue bgp_vrfs (PStr vrf) (PStr p) = Ok true.
Proof.
  intros Hx Hbad.
  cbn [peers_well_formed] in Hwf.
  pose proof (forallb_dict_get _ _ _ Hwf Hx) as Hp. unfold peer_well_formed, has_key in Hp.
  apply andb_true_iff in Hp as [Hp H3]. apply andb_true_iff in Hp as [H1 H2].
  unfold peer_has_issue. rewrite !(counted_peer_field _ _ _ Hx).
  unfold peer_healthy in Hbad.
  destruct (py_getitem x (PStr "peerState")) as [st|]; [|discriminate].
  destruct (py_getitem x (PStr "inMsgQueue")) as [i|]; [|discriminate].
  destruct (py_getitem x (PStr "outMsgQueue")) as [o|]; [|discriminate].
  cbn [res_bind].
  destruct (py_eq_str st "Established"); cbn [negb andb] in *; [|reflexivity].
  destruct (py_eq_int i 0); cbn [negb andb] in *; [|reflexivity].
  now rewrite Hbad.
Qed.

Lemma collect_peer_state_issue_loop keys : forall acc,
  (forall k, In k keys -> In k (dict_keys ps)) ->
  exists acc',
    for_res keys acc (keep_peer_issue bgp_vrfs (PStr vrf)) = Ok acc' /\
    (acc <> [] -> acc' <> []) /\
    (forall p, In (PStr p) keys -> peer_has_issue bgp_vrfs (PStr vrf) (PStr p) = Ok true ->
               acc' <> []).
Proof.
  induction keys as [|k keys IH]; intros acc Hsub.
  - exists acc. cbn. repeat split; auto; tauto.
  - cbn [for_res]. cbn [peers_well_formed] in Hwf.
    destruct (forallb_str_keys _ _ Hwf (Hsub k (or_introl eq_refl))) as (p & ->).
    pose proof (counted_peer_known p (Hsub _ (or_introl eq_refl))) as Hk.
    destruct (peer_known_has_issue _ _ _ Hk) as (b & Hb).
    destruct (peer_known_entry _ _ _ Hk) as (E & HE).
    unfold keep_peer_issue at 1. rewrite Hb. cbn [res_bind]. destruct b.
    + rewrite HE. cbn [require_hashable hashable res_bind].
      destruct (IH (dict_set (PStr p) E acc) (fun x Hx => Hsub x (or_intror Hx)))
        as (acc' & Hloop & Hkeep & Hnew).
      exists acc'. split; [assumption|]. split.
      * intros _. apply Hkeep, dict_set_nonempty.
      * intros p0 _ _. apply Hkeep, dict_set_nonempty.
    + destruct (IH acc (fun x Hx => Hsub x (or_intror Hx))) as (acc' & Hloop & Hkeep & Hnew).
      exists acc'. split; [assumption|]. split; [assumption|].
      intros p0 [Heq|Hin] Hissue.
      * injection Heq as <-. rewrite Hb in Hissue. discriminate.
      * eauto.
Qed.

(** With an unhealthy peer the comprehension of lines 128-140 is not
    empty. *)
Lemma collect_peer_state_issue_unhealthy p x :
  dict_get (PStr p) ps = Some x -> peer_healthy x = false ->
  exists issues,
    collect_peer_state_issue bgp_vrfs (PStr vrf) = Ok (PDict issues) /\ issues <> [].
Proof.
  intros Hx Hbad. unfold collect_peer_state_issue. rewrite Hpeers. cbn [res_bind py_iter].
  destruct (collect_peer_state_issue_loop (dict_keys ps) [] (fun k Hk => Hk))
    as (issues & Hloop & _ & Hnew).
  exists issues. rewrite Hloop. split; [reflexivity|].
  apply (Hnew p); [eapply dict_get_In_keys; eauto|eapply unhealthy_peer_has_issue; eauto].
Qed.

End CountedPeers.

Section Extent.
Variable enabled : string -> InventoryDevice -> bool.
Variable skip_message : string -> string.

(** Support for C1 and C6: whatever number is expected,
    [verify_bgp_ipv4_unicast_count] returns success, with no message,
    as soon as one peer of the VRF is not established or has a message
    queued. *)
Lemma ipv4_count_with_unhealthy_peer device number vrf response bgp_vrfs ps p x :
  enabled "ipv4" device = true ->
  number <> 0 ->
  vrf <> "" ->
  session device (mkCommand 1 ["show bgp ipv4 unicast summary vrf " ++ vrf] "json")
    = Ok response ->
  Ok response !! PInt 0 !! PStr "vrfs" = Ok bgp_vrfs ->
  Ok bgp_vrfs !! PStr vrf !! PStr "peers" = Ok (PDict ps) ->
  peers_well_formed peer_well_formed (PDict ps) = true ->
  dict_get (PStr p) ps = Some x ->
  peer_healthy x = false ->
  outcome (verify_bgp_ipv4_unicast_count enabled skip_message device (Some number) (Some vrf))
  = Ok (mkTestResult (device_host device) "verify_bgp_ipv4_unicast_count" Success []).
Proof.
  intros Hen Hnum Hvrf Hsess Hvrfs Hpeers Hwf Hx Hbad.
  destruct (collect_peer_state_issue_unhealthy _ _ _ Hpeers Hwf _ _ Hx Hbad)
    as (issues & Hissue & Hne).
  assert (Ht : truthy (PDict issues) = true) by (destruct issues; [congruence|reflexivity]).
  unfold outcome, run, verify_bgp_ipv4_unicast_count, check_bgp_family_enable. rewrite Hen.
  cbn [not_int not_str int_value str_value].
  apply Z.eqb_neq in Hnum. rewrite Hnum. apply String.eqb_neq in Hvrf. rewrite Hvrf.
  cbn [orb]. unfold verify_bgp_ipv4_unicast_count_try.
  repeat (unfold_stmt; rewrite ?Hsess, ?Hvrfs, ?Hpeers, ?Hissue, ?Ht; cbn [res_bind py_len]).
  rewrite orb_true_r. reflexivity.
Qed.

(** Support for C1: [verify_bgp_evpn_count] decides on the number of
    peers alone; it never reads a state. *)
Lemma evpn_count_ignores_peer_state device number response peers len_peers :
  enabled "evpn" device = true ->
  number <> 0 ->
  session device (mkCommand 1 ["show bgp evpn summary"] "json") = Ok response ->
  Ok response !! PInt 0 !! PStr "vrfs" !! PStr "default" !! PStr "peers" = Ok peers ->
  py_len peers = Ok len_peers ->
  outcome (verify_bgp_evpn_count enabled skip_message device (Some number))
  = Ok (mkTestResult (device_host device) "verify_bgp_evpn_count"
          (if len_peers =? number then Success else Failure)
          (if len_peers =? number then []
           else ["Expecting " ++ string_of_Z number ++ " BGP EVPN peers and got "
                   ++ string_of_Z len_peers])).
Proof.
  intros Hen Hnum Hsess Hpeers Hlen.
  unfold outcome, run, verify_bgp_evpn_count, check_bgp_family_enable. rewrite Hen.
  cbn [not_int int_value]. apply Z.eqb_neq in Hnum. rewrite Hnum.
  unfold verify_bgp_evpn_count_try.
  repeat (unfold_stmt; rewrite ?Hsess, ?Hpeers, ?Hlen).
  destruct (len_peers =? number); unfold_all; reflexivity.
Qed.

(** Support for C8: in each of the three checks of software.py a
    time-out of the session leaves the function as an exception. *)
Lemma software_timeout_escapes c device text :
  in_software c = true ->
  parameters_supplied c = true ->
  session device (check_command c) = Raise (socket_timeout text) ->
  outcome (run_check enabled skip_message c device) = Raise (socket_timeout text).
Proof.
  intros Hsoft Hpar Hsess.
  pose proof (session_failure_in_try c device _ (at_try c device) Hsess) as Htry.
  destruct c; try discriminate Hsoft; cbn [run_check]; unfold_checks;
    cbn [parameters_supplied] in Hpar; try (apply negb_true_iff in Hpar; rewrite Hpar);
    unfold check_try, at_try in Htry; cbn [check_name] in Htry;
    unfold_stmt; rewrite Htry; reflexivity.
Qed.
End Extent.

(** ** The running-config check

    The loop of lines 63-64 assigns failure again for every line. *)
Lemma report_lines_log lines : forall s,
  exists n, status_log (snd (report_lines lines s)) = (status_log s ++ repeat Failure n)%list.
Proof.
  induction lines as [|line lines IH]; intros s.
  - exists 0%nat. cbn. now rewrite app_nil_r.
  - cbn [report_lines].
    destruct line; try (exists 0%nat; cbn; now rewrite app_nil_r).
    unfold bind at 1. unfold lift at 1. unfold bind at 1.
    destruct (is_failure s0 s) as [[u|e] s1] eqn:Hs1.
    + assert (Hlog : status_log s1 = (status_log s ++ [Failure])%list).
      { revert Hs1. unfold is_failure. unfold_stmt.
        destruct (String.eqb s0 ""); intros [= _ <-]; reflexivity. }
      destruct (IH s1) as (n & Hn). exists (S n). rewrite Hn, Hlog.
      now rewrite <- app_assoc.
    + exfalso. revert Hs1. unfold is_failure. unfold_stmt.
      destruct (String.eqb s0 ""); discriminate.
Qed.

Lemma follows_repeat_failure n : follows forward Failure (repeat Failure n) = true.
Proof. induction n as [|n IH]; [reflexivity|]. cbn [repeat follows]. now rewrite IH. Qed.

(** X20, the forward-only property of C2 for this test: the body of
    [VerifyRunningConfigDiffs.test] never replaces a terminal status by
    another one, whatever the output it is given. *)
Lemma running_config_diffs_moves_forward command_output :
  forward_only (status_log (final (VerifyRunningConfigDiffs_test command_output))) = true.
Proof.
  assert (Hother : forall s1 (m : M (list pyval)),
            status_log s1 = [Failure] ->
            (forall s, snd (m s) = s) ->
            forward_only (status_log (snd (bind m report_lines s1))) = true).
  { intros s1 m Hs1 Hm. unfold bind. specialize (Hm s1).
    destruct (m s1) as [[lines|e] s2]; cbn [snd] in Hm; subst s2.
    - destruct (report_lines_log lines s1) as (n & Hn). rewrite Hn, Hs1.
      cbn [app]. unfold forward_only. cbn [follows forward terminal Status_eqb negb orb andb].
      apply follows_repeat_failure.
    - cbn [snd]. now rewrite Hs1. }
  unfold final, run.
  destruct command_output; cbn [VerifyRunningConfigDiffs_test];
    try (match goal with
         | |- context [lift (py_iter ?x)] =>
             change (forward_only
                       (status_log
                          (snd (bind (lift (py_iter x)) report_lines
                                  (mkExec (mkTestResult "" "" Failure []) [] [Failure]))))
                     = true)
         end;
         apply Hother; [reflexivity|intros ?; reflexivity]).
  - reflexivity.
  - destruct (negb _); reflexivity.
Qed.

(** ** The checks on sample devices *)

(** C1.  With one peer expected and one peer present that is idle,
    [verify_bgp_ipv4_unicast_count] and [verify_bgp_evpn_count] return
    success, against their docstrings; [verify_bgp_rtc_count] fails as
    it should. *)
Theorem peer_count_success_with_idle_peer :
  outcome (verify_bgp_ipv4_unicast_count every_family_enabled no_family_message
             one_idle_peer (Some 1) (Some "default"))
  = Ok (mkTestResult "leaf1" "verify_bgp_ipv4_unicast_count" Success []) /\
  outcome (verify_bgp_evpn_count every_family_enabled no_family_message one_idle_peer (Some 1))
  = Ok (mkTestResult "leaf1" "verify_bgp_evpn_count" Success []) /\
  outcome (verify_bgp_rtc_count every_family_enabled no_family_message one_idle_peer (Some 1))
  = Ok (mkTestResult "leaf1" "verify_bgp_rtc_count" Failure []).
Proof. repeat split; reflexivity. Qed.

(** C6.  With three peers expected and two present, one of them idle,
    [verify_bgp_ipv4_unicast_count] returns success with no message:
    the test of line 142 accepts any response with an unhealthy peer. *)
Theorem two_peers_for_three_is_success_with_idle_peer :
  outcome (verify_bgp_ipv4_unicast_count every_family_enabled no_family_message
             two_peers_one_idle (Some 3) (Some "default"))
  = Ok (mkTestResult "leaf1" "verify_bgp_ipv4_unicast_count" Success []).
Proof. reflexivity. Qed.

(** The scenarios of C6 on healthy peers: three for three succeed, three
    for four fail with the message that gives both numbers. *)
Example three_healthy_peers_for_three :
  outcome (verify_bgp_ipv4_unicast_count every_family_enabled no_family_message
             three_healthy_peers (Some 3) (Some "default"))
  = Ok (mkTestResult "leaf1" "verify_bgp_ipv4_unicast_count" Success []).
Proof. reflexivity. Qed.

Example three_healthy_peers_for_four :
  outcome (verify_bgp_ipv4_unicast_count every_family_enabled no_family_message
             three_healthy_peers (Some 4) (Some "default"))
  = Ok (mkTestResult "leaf1" "verify_bgp_ipv4_unicast_count" Failure
          ["Expecting 4 BGP peer in vrf default and got 3"]).
Proof. reflexivity. Qed.

(** C8.  A time-out of the session leaves the three checks of
    software.py that return a [TestResult] as an exception: their
    [except] clause names AppError and KeyError only.  The command was
    sent and no status was assigned. *)
Theorem software_checks_let_timeout_escape :
  run (verify_eos_version timing_out (Some ["4.27.0F"]))
  = (Raise (socket_timeout "timed out"),
     mkExec (mkTestResult "leaf1" "verify_eos_version" Unset [])
            [mkCommand 1 ["show version"] "json"] []) /\
  outcome (verify_terminattr_version timing_out (Some ["v1.17.0"]))
  = Raise (socket_timeout "timed out") /\
  outcome (verify_field_notice_44_resolution timing_out)
  = Raise (socket_timeout "timed out").
Proof. repeat split; reflexivity. Qed.

(** The same time-out in vxlan.py is caught. *)
Example vxlan_timeout_is_error :
  outcome (verify_vxlan timing_out)
  = Ok (mkTestResult "leaf1" "verify_vxlan" Error ["timed out"]).
Proof. reflexivity. Qed.

(** Against C2 as stated: on an impacted model with Aboot 4.0.1 the
    field-notice check assigns success and then failure. *)
Lemma field_notice_retracts_success :
  status_log (final (verify_field_notice_44_resolution old_aboot)) = [Success; Failure] /\
  forward_only (status_log (final (verify_field_notice_44_resolution old_aboot))) = false.
Proof. split; reflexivity. Qed.

(** Whenever the device rejects the two commands, [verify_eos_extensions]
    returns [None]: no result is built and the cause is lost. *)
Lemma extensions_check_swallows_rejection device text :
  session device (mkCommand 1 ["show extensions"; "show boot-extensions"] "json")
    = Raise (AppError text) ->
  run (verify_eos_extensions device)
  = (Ok None,
     mkExec (this_result start)
            [mkCommand 1 ["show extensions"; "show boot-extensions"] "json"] []).
Proof.
  intros Hsess. unfold verify_eos_extensions. unfold_stmt. rewrite Hsess. reflexivity.
Qed.

(** C3.  Failures that are not turned into a result with status error.
    When the device rejects the commands, and when its answer lacks the
    [extensions] field, [verify_eos_extensions] returns [None]: it
    builds no result and keeps no trace of the cause (lines 102-103 and
    121-122).  [verify_field_notice_44_resolution] lets the failures of
    lines 202-206 leave the function: an [IndexError] for an Aboot
    version string with fewer than three parts, and an
    [UnboundLocalError], after the status was set to success, when no
    component is named Aboot. *)
Theorem failures_are_swallowed_or_escape :
  run (verify_eos_extensions rejecting)
  = (Ok None,
     mkExec (mkTestResult "" "" Unset [])
            [mkCommand 1 ["show extensions"; "show boot-extensions"] "json"] []) /\
  run (verify_eos_extensions no_version_field)
  = (Ok None,
     mkExec (mkTestResult "" "" Unset [])
            [mkCommand 1 ["show extensions"; "show boot-extensions"] "json"] []) /\
  outcome (verify_field_notice_44_resolution short_aboot_version)
  = Raise (IndexError "list index out of range") /\
  run (verify_field_notice_44_resolution no_aboot_component)
  = (Raise (UnboundLocalError "local variable 'aboot_version' referenced before assignment"),
     mkExec (mkTestResult "leaf1" "verify_field_notice_44_resolution" Success [])
            [mkCommand 1 ["show version detail"] "json"] [Success]).
Proof. repeat split; reflexivity. Qed.

(** Against C4 as stated: without versions, [verify_eos_version] returns
    a result whose status is unset, not skipped. *)
Lemma eos_version_without_versions_is_unset :
  outcome (verify_eos_version one_idle_peer None)
  = Ok (mkTestResult "leaf1" "verify_eos_version" Unset
          ["verify_eos_version was not run as no versions were givem"]) /\
  ~ (exists r, outcome (verify_eos_version one_idle_peer None) = Ok r /\ result r = Skipped).
Proof.
  split; [reflexivity|]. intros (r & Hr & Hs). cbv in Hr. injection Hr as <-. discriminate Hs.
Qed.

(** What the checks do on purpose where the verdict is concerned: on a
    device that lists no category the config-sanity check is skipped,
    and for two peers that are not established the state check appends
    one message that lists both. *)
Lemma config_sanity_skips_and_state_check_sends_one_message :
  outcome (verify_vxlan_config_sanity no_vxlan_categories)
  = Ok (mkTestResult "leaf1" "verify_vxlan_config_sanity" Skipped
          ["Vxlan is not enabled on this device"]) /\
  outcome (verify_bgp_ipv4_unicast_state every_family_enabled no_family_message two_idle_peers)
  = Ok (mkTestResult "leaf1" "verify_bgp_ipv4_unicast_state" Failure
          ["Some IPv4 Unicast BGP Peer are not up: {'default': {'10.0.0.1': {'peerState': 'Idle', 'inMsgQueue': 0, 'outMsgQueue': 0}, '10.0.0.2': {'peerState': 'Idle', 'inMsgQueue': 0, 'outMsgQueue': 0}}}"]).
Proof. split; reflexivity. Qed.

(** Whenever Vxlan1 is listed with the two fields [verify_vxlan] reads
    and they are not both "up", line 48 appends the message and no
    status is assigned: the result comes back unset. *)
Lemma vxlan_not_up_leaves_status_unset device response descr line_status iface_status :
  session device (mkCommand 1 ["show interfaces description"] "json") = Ok response ->
  Ok response !! PInt 0 !! PStr "interfaceDescriptions" = Ok descr ->
  py_contains_str descr "Vxlan1" = Ok true ->
  Ok descr !! PStr "Vxlan1" !! PStr "lineProtocolStatus" = Ok line_status ->
  Ok descr !! PStr "Vxlan1" !! PStr "intefraceStatus" = Ok iface_status ->
  py_eq_str line_status "up" && py_eq_str iface_status "up" = false ->
  run (verify_vxlan device)
  = let r := mkTestResult (device_host device) "verify_vxlan" Unset
               ["Vxlan interface is " ++ py_str line_status ++ "/"
                  ++ py_str iface_status ++ "."] in
    (Ok r, mkExec r [mkCommand 1 ["show interfaces description"] "json"] []).
Proof.
  intros Hsess Hdescr Hhas Hline Hiface Hup.
  unfold verify_vxlan, verify_vxlan_try.
  repeat (unfold_stmt; rewrite ?Hsess, ?Hdescr, ?Hhas, ?Hline, ?Hiface; cbn [negb]).
  rewrite Hup. reflexivity.
Qed.

(** C5.  Well-formed outputs on which the verification sets neither
    success nor failure.  On a Vxlan1 that is down in both fields
    [verify_vxlan] reads, the check appends its message and returns a
    result that is still unset (vxlan.py, lines 47-50).  On a list with a
    line that is not empty, the body of [VerifyRunningConfigDiffs.test]
    assigns nothing at all (configuration.py, lines 58-60).  And on a
    Vxlan1 that the device reports up with its own field names,
    [verify_vxlan] ends with an error. *)
Theorem well_formed_output_leaves_status_unset :
  run (verify_vxlan vxlan1_down_as_read)
  = (Ok (mkTestResult "leaf1" "verify_vxlan" Unset ["Vxlan interface is down/down."]),
     mkExec (mkTestResult "leaf1" "verify_vxlan" Unset ["Vxlan interface is down/down."])
            [mkCommand 1 ["show interfaces description"] "json"] []) /\
  VerifyRunningConfigDiffs_test (PList [PStr "+ hostname leaf1"]) start = (Ok tt, start) /\
  outcome (verify_vxlan vxlan1_up)
  = Ok (mkTestResult "leaf1" "verify_vxlan" Error ["'intefraceStatus'"]).
Proof. repeat split; reflexivity. Qed.

(** ** The theorems at sample inputs *)

(** The failure of the state check on the two sample VRFs. *)
Lemma bgp_state_failure_names_peer_witness :
  exists r s before between after,
    run (verify_bgp_ipv4_unicast_state every_family_enabled no_family_message
           two_vrfs_one_active) = (Ok r, s) /\
    result r = Failure /\
    messages r =
      ["Some IPv4 Unicast BGP Peer are not up: " ++ before
         ++ repr (PStr "PROD") ++ ": {" ++ between
         ++ repr (PStr "10.0.0.2") ++ ": "
         ++ "{'peerState': " ++ repr (PStr "Active") ++ ", 'inMsgQueue': " ++ repr (PInt 0)
         ++ ", 'outMsgQueue': " ++ repr (PInt 4) ++ "}" ++ after].
Proof.
  apply (bgp_state_failure_names_peer every_family_enabled no_family_message
           two_vrfs_one_active two_vrfs_summary
           "default" (obj [("peers", obj [("10.0.0.1", bgp_peer "Established" 0 0)])])
           "PROD" (obj [("peers", obj [("10.0.0.2", bgp_peer "Active" 0 4)])])
           "PROD" "10.0.0.2" (PStr "Active") (PInt 0) (PInt 4)); reflexivity.
Defined.

(** The error of [verify_vxlan] on a Vxlan1 that is up. *)
Lemma vxlan_misspelt_field_is_error_witness :
  exists r s,
    run (verify_vxlan vxlan1_up) = (Ok r, s) /\
    result r = Error /\
    messages r = ["'intefraceStatus'"] /\
    result r <> Success.
Proof.
  apply (vxlan_misspelt_field_is_error vxlan1_up vxlan1_up_response
           [(PStr "Vxlan1", PDict vxlan1_entry_up)] vxlan1_entry_up (PStr "up") (PStr "up"));
    reflexivity.
Defined.

(** Zero EVPN peers expected on the sample device. *)
Lemma zero_peers_expected_is_skipped_witness :
  run (verify_bgp_evpn_count every_family_enabled no_family_message one_idle_peer (Some 0))
  = stopped "leaf1" "verify_bgp_evpn_count" Skipped
      "verify_bgp_evpn_count could not run because number was not supplied.".
Proof.
  apply (zero_peers_expected_is_skipped every_family_enabled no_family_message
           one_idle_peer (Some "default") eq_refl eq_refl eq_refl).
Defined.

(** The RTC count check without its number. *)
Lemma absent_parameter_stops_check_witness :
  run (run_check every_family_enabled no_family_message (VerifyBgpRtcCount None) one_idle_peer)
  = stopped "leaf1" "verify_bgp_rtc_count" Skipped
      "verify_bgp_rtc_count could not run because number was not supplied".
Proof.
  apply (absent_parameter_stops_check every_family_enabled no_family_message
           (VerifyBgpRtcCount None) one_idle_peer eq_refl eq_refl).
Defined.

(** * Further properties of the checks *)

(** ** What every check does *)

(** Turns a statement about every returned result into one about the
    run itself, so that it can be settled by case analysis. *)
Ltac by_outcome :=
  lazymatch goal with
  | |- forall r s, ?m = (Ok r, s) -> @?P r s =>
      let Hgen := fresh "Hgen" in
      enough (Hgen : match m with
                     | (Ok r, s) => P r s
                     | (Raise _, _) => True
                     end)
        by (intros r s H; rewrite H in Hgen; exact Hgen);
      cbv beta
  end.

Lemma py_eq_str_true v s : py_eq_str v s = true -> v = PStr s.
Proof.
  destruct v; cbn [py_eq_str]; try discriminate. intros H. apply String.eqb_eq in H. now subst.
Qed.

Lemma chain_split (m : res pyval) k x :
  m !! k = Ok x -> exists c, m = Ok c /\ py_getitem c k = Ok x.
Proof. destruct m as [c|e]; cbn; [eauto|discriminate]. Qed.

Lemma truthy_list l : truthy (PList l) = negb (is_nil l).
Proof. now destruct l. Qed.

Lemma repr_str_not_empty s : String.eqb (repr_str s) "" = false.
Proof. reflexivity. Qed.

Section EveryCheck.

Variable enabled : string -> InventoryDevice -> bool.
Variable skip_message : string -> string.

(** X1.  Whatever the device answers and whether or not the check
    returns, a check sends the device nothing or exactly its one
    command, once. *)
Theorem at_most_one_command c device :
  calls (final (run_check enabled skip_message c device)) = [] \/
  calls (final (run_check enabled skip_message c device)) = [check_command c].
Proof.
  unfold check_command.
  destruct c; cbn [run_check]; unfold_checks; unfold_tries.
  all: split_all; auto.
Qed.

(** X2.  The result a check returns carries the host of the device it
    was run on and the name of the check, on every path: guard, verdict
    or error. *)
Theorem result_names_device_and_check c device : forall r s,
  run (run_check enabled skip_message c device) = (Ok r, s) ->
  host r = device_host device /\ test r = check_name c.
Proof.
  by_outcome.
  destruct c; cbn [run_check check_name]; unfold_checks; unfold_tries.
  all: split_all; auto.
Qed.

(** X3.  A result that is skipped was decided before any command was
    sent, except in [verify_vxlan_config_sanity], which skips on the
    answer of the device. *)
Theorem skipped_before_any_command c device : forall r s,
  run (run_check enabled skip_message c device) = (Ok r, s) ->
  result r = Skipped ->
  calls s = [] \/ c = VerifyVxlanConfigSanity.
Proof.
  by_outcome.
  destruct c; cbn [run_check]; unfold_checks; unfold_tries.
  all: split_all; auto; intros Hs; discriminate Hs.
Qed.

(** X4.  A check returns a result that is still unset only in two
    cases: [verify_vxlan], and a version check called without
    versions.  In particular the "unset" that the field-notice check
    assigns for a model that is not impacted never reaches the caller. *)
Theorem unset_only_without_verdict c device : forall r s,
  run (run_check enabled skip_message c device) = (Ok r, s) ->
  result r = Unset ->
  c = VerifyVxlan \/
  exists versions, (c = VerifyEosVersion versions \/ c = VerifyTerminattrVersion versions) /\
                   not_list versions = true.
Proof.
  by_outcome.
  destruct c; cbn [run_check]; unfold_checks; unfold_tries.
  all: split_all; auto; intros Hs; try discriminate Hs; eauto.
Qed.

End EveryCheck.

(** ** The VXLAN checks *)

(** X5.  [verify_vxlan] returns success only when the device answered
    and the two fields it reads of Vxlan1, [lineProtocolStatus] and
    [intefraceStatus], are both "up"; the result then has no message. *)
Theorem vxlan_success_means_both_up device : forall r s,
  run (verify_vxlan device) = (Ok r, s) ->
  result r = Success ->
  exists response,
    session device (mkCommand 1 ["show interfaces description"] "json") = Ok response /\
    Ok response !! PInt 0 !! PStr "interfaceDescriptions" !! PStr "Vxlan1"
      !! PStr "lineProtocolStatus" = Ok (PStr "up") /\
    Ok response !! PInt 0 !! PStr "interfaceDescriptions" !! PStr "Vxlan1"
      !! PStr "intefraceStatus" = Ok (PStr "up") /\
    messages r = [].
Proof.
  by_outcome.
  unfold verify_vxlan, verify_vxlan_try.
  split_all; auto; intros Hs; try discriminate Hs.
  repeat match goal with
         | H : py_eq_str _ "up" = true |- _ => apply py_eq_str_true in H
         end.
  subst. eexists. split; [reflexivity|].
  match goal with
  | H : Ok _ !! PInt 0 !! PStr "interfaceDescriptions" = Ok _ |- _ => rewrite H
  end.
  auto.
Qed.

Lemma collect_failed_categories_loop d : forall acc,
  categories_well_formed d = true ->
  for_res d acc (fun acc item =>
       let '(category, content) := item in
       if py_eq_str category "localVtep" || py_eq_str category "mlag" then
         (allCheckPass <- Ok content !! PStr "allCheckPass" ;;
          if is_not_True allCheckPass then Ok (dict_set category content acc) else Ok acc)%res
       else Ok acc)
  = Ok (fold_left (fun acc kv => dict_set (fst kv) (snd kv) acc) (filter category_fails d) acc).
Proof.
  induction d as [|[category content] d IH]; intros acc Hwf; [reflexivity|].
  cbn [categories_well_formed forallb fst snd] in Hwf. apply andb_true_iff in Hwf as [Hc Hd].
  fold (categories_well_formed d) in Hd.
  cbn [for_res filter]. unfold category_fails at 1. cbn [fst snd].
  unfold sanity_category in *. unfold has_key in Hc.
  destruct (py_eq_str category "localVtep" || py_eq_str category "mlag"); cbn [negb orb andb] in *.
  - unfold subscript. cbn [res_bind].
    destruct (py_getitem content (PStr "allCheckPass")) as [v|]; [|discriminate Hc].
    cbn [res_bind]. destruct (is_not_True v); cbn [res_bind fold_left fst snd]; now apply IH.
  - cbn [res_bind]. now apply IH.
Qed.

Lemma fold_dict_set_nonempty l : forall acc,
  acc <> [] ->
  fold_left (fun acc (kv : pyval * pyval) => dict_set (fst kv) (snd kv) acc) l acc <> [].
Proof.
  induction l as [|kv l IH]; intros acc Hacc; [assumption|].
  cbn [fold_left]. apply IH. apply dict_set_nonempty.
Qed.

Lemma failing_categories_nil d :
  failing_categories d = [] <-> existsb category_fails d = false.
Proof.
  unfold failing_categories. split.
  - intros H. destruct (existsb category_fails d) eqn:E; [|reflexivity].
    apply existsb_exists in E as (kv & Hin & Hkv).
    assert (Hf : In kv (filter category_fails d)) by (apply filter_In; auto).
    destruct (filter category_fails d) as [|kv0 l]; [destruct Hf|].
    cbn [fold_left] in H. exfalso. revert H. apply fold_dict_set_nonempty, dict_set_nonempty.
  - intros H. replace (filter category_fails d) with (@nil (pyval * pyval)); [reflexivity|].
    symmetry. induction d as [|kv d IH]; [reflexivity|].
    cbn [existsb] in H. apply orb_false_iff in H as [H1 H2]. cbn [filter]. rewrite H1. auto.
Qed.

(** X6.  [verify_vxlan_config_sanity] on an answer that lists
    categories: only [localVtep] and [mlag] count.  The result is a
    failure when one of the two has an [allCheckPass] that is not
    [True], with one message that prints the failing ones, and a success
    without message otherwise, whatever the other categories say. *)
Theorem config_sanity_verdict device response d :
  session device (mkCommand 1 ["show vxlan config-sanity"] "json") = Ok response ->
  Ok response !! PInt 0 !! PStr "categories" = Ok (PDict d) ->
  d <> [] ->
  categories_well_formed d = true ->
  outcome (verify_vxlan_config_sanity device)
  = Ok (mkTestResult (device_host device) "verify_vxlan_config_sanity"
          (if existsb category_fails d then Failure else Success)
          (if existsb category_fails d
           then ["Vxlan config sanity check is not passing: "
                   ++ repr (PDict (failing_categories d))]
           else [])).
Proof.
  intros Hsess Hcat Hne Hwf.
  assert (Hcollect : collect_failed_categories (PDict d) = Ok (PDict (failing_categories d))).
  { unfold collect_failed_categories. cbn [py_items res_bind].
    rewrite collect_failed_categories_loop by assumption. reflexivity. }
  assert (Hlen : (Z.of_nat (List.length d) =? 0) = false).
  { destruct d; [congruence|]. cbn [List.length]. apply Z.eqb_neq. lia. }
  unfold verify_vxlan_config_sanity, verify_vxlan_config_sanity_try.
  repeat (unfold_stmt; rewrite ?Hsess, ?Hcat; cbn [py_len]; rewrite ?Hlen, ?Hcollect).
  destruct (existsb category_fails d) eqn:E.
  - destruct (failing_categories d) eqn:F.
    + apply failing_categories_nil in F. congruence.
    + cbn [truthy]. unfold_all. reflexivity.
  - apply failing_categories_nil in E. rewrite E. reflexivity.
Qed.

(** ** The BGP state checks on any well-formed summary *)

Lemma record_peer_issue_sound bgp_vrfs v p acc acc' :
  issues_sound bgp_vrfs acc ->
  record_peer_issue bgp_vrfs (PStr v) acc (PStr p) = Ok acc' ->
  issues_sound bgp_vrfs acc'.
Proof.
  intros [Hacc Honly] H. unfold record_peer_issue in H.
  destruct (peer_has_issue bgp_vrfs (PStr v) (PStr p)) as [b|] eqn:Hb; [|discriminate H].
  cbn [res_bind] in H. destruct b.
  2:{ injection H as <-. now split. }
  cbn [require_hashable hashable res_bind] in H.
  destruct (peer_issue_entry bgp_vrfs (PStr v) (PStr p)) as [E|] eqn:HE; [|discriminate H].
  cbn [res_bind] in H. injection H as <-.
  set (acc1 := dict_setdefault (PStr v) (PDict []) acc).
  assert (Hget1 : exists vd, dict_get (PStr v) acc1 = Some (PDict vd) /\
            (dict_get (PStr v) acc = Some (PDict vd) \/ vd = [])).
  { unfold acc1. rewrite dict_get_setdefault_same.
    destruct (dict_get (PStr v) acc) as [x|] eqn:Hx.
    - destruct (Hacc _ _ Hx) as (d & ->). exists d. auto.
    - exists []. auto. }
  destruct Hget1 as (vd & Hvd & Hfrom). rewrite Hvd.
  split.
  - intros s x. destruct (String.eqb_spec s v) as [->|Hne].
    + rewrite dict_get_set_same. intros [= <-]. eauto.
    + rewrite dict_get_set_other by assumption. unfold acc1.
      rewrite dict_get_setdefault_other by assumption. apply Hacc.
  - intros v0 dv p0 E0. destruct (String.eqb_spec v0 v) as [->|Hne].
    + rewrite dict_get_set_same. intros [= <-].
      destruct (String.eqb_spec p0 p) as [->|Hnp].
      * rewrite dict_get_set_same. intros [= <-]. auto.
      * rewrite dict_get_set_other by assumption. intros Hp0.
        destruct Hfrom as [Hfrom| ->]; [eapply Honly; eauto|discriminate Hp0].
    + rewrite dict_get_set_other by assumption. unfold acc1.
      rewrite dict_get_setdefault_other by assumption. apply Honly.
Qed.

Lemma record_peers_sound bgp_vrfs v peers : forall acc acc',
  (forall x, In x peers -> exists p, x = PStr p) ->
  issues_sound bgp_vrfs acc ->
  for_res peers acc (record_peer_issue bgp_vrfs (PStr v)) = Ok acc' ->
  issues_sound bgp_vrfs acc'.
Proof.
  induction peers as [|x peers IH]; intros acc acc' Hstr Hacc H.
  - cbn in H. now injection H as <-.
  - destruct (Hstr x (or_introl eq_refl)) as (p & ->). cbn [for_res] in H.
    destruct (record_peer_issue bgp_vrfs (PStr v) acc (PStr p)) as [acc1|] eqn:Hstep;
      [|discriminate H].
    cbn [res_bind] in H.
    eapply IH; [| |exact H].
    + intros y Hy. apply Hstr. now right.
    + eapply record_peer_issue_sound; eauto.
Qed.

Lemma record_vrfs_sound d vrfs : forall acc acc',
  vrfs_well_formed (PDict d) = true ->
  (forall x, In x vrfs -> In x (dict_keys d)) ->
  issues_sound (PDict d) acc ->
  for_res vrfs acc (record_vrf_issues (PDict d)) = Ok acc' ->
  issues_sound (PDict d) acc'.
Proof.
  induction vrfs as [|x vrfs IH]; intros acc acc' Hwf Hsub Hacc H.
  - cbn in H. now injection H as <-.
  - pose proof (Hsub x (or_introl eq_refl)) as Hin.
    pose proof Hwf as Hwf'. cbn [vrfs_well_formed] in Hwf'.
    destruct (forallb_str_keys _ _ Hwf' Hin) as (v & ->).
    destruct (wf_vrf_lookup _ _ Hwf Hin) as (e & ps & He & Hps & Hpwf).
    cbn [for_res] in H. unfold record_vrf_issues at 1 in H. unfold subscript in H.
    cbn [res_bind py_getitem hashable] in H. rewrite He in H. cbn [res_bind] in H.
    rewrite Hps in H. cbn [res_bind py_iter] in H.
    destruct (for_res (dict_keys ps) acc (record_peer_issue (PDict d) (PStr v)))
      as [acc1|] eqn:Hloop; [|discriminate H].
    cbn [res_bind] in H.
    eapply IH; [assumption| | |exact H].
    + intros y Hy. apply Hsub. now right.
    + eapply record_peers_sound; [|exact Hacc|exact Hloop].
      intros y Hy. eapply forallb_str_keys; eauto.
Qed.

(** X7.  The two loops of the unicast state checks, on a well-formed
    summary: they end, every listed peer with an issue (a state other
    than Established or a queue that is not empty) is in [state_issue]
    under its VRF with its three fields, and [state_issue] holds nothing
    else. *)
Theorem state_issue_is_exact d :
  vrfs_well_formed (PDict d) = true ->
  exists state_issue,
    collect_state_issue (PDict d) = Ok (PDict state_issue) /\
    (forall v p, peer_listed d v p ->
                 peer_has_issue (PDict d) (PStr v) (PStr p) = Ok true ->
                 reported (PDict d) state_issue v p) /\
    only_issues (PDict d) state_issue.
Proof.
  intros Hwf. destruct (collect_state_issue_reports d Hwf) as (si & Hsi & Hrep).
  exists si. split; [assumption|]. split; [assumption|].
  unfold collect_state_issue in Hsi. cbn [py_iter res_bind] in Hsi.
  destruct (for_res (dict_keys d) [] (record_vrf_issues (PDict d))) as [acc|] eqn:Hloop;
    [|discriminate Hsi].
  cbn [res_bind] in Hsi. injection Hsi as <-.
  eapply (record_vrfs_sound d (dict_keys d) [] acc Hwf); [auto| |exact Hloop].
  split; intros ? ?; intros; discriminate.
Qed.

Lemma record_peers_quiet bgp_vrfs vrf peers acc :
  (forall x, In x peers -> peer_has_issue bgp_vrfs vrf x = Ok false) ->
  for_res peers acc (record_peer_issue bgp_vrfs vrf) = Ok acc.
Proof.
  induction peers as [|x peers IH]; intros Hq; [reflexivity|].
  cbn [for_res]. unfold record_peer_issue at 1. rewrite (Hq x (or_introl eq_refl)).
  cbn [res_bind]. apply IH. intros y Hy. apply Hq. now right.
Qed.

Lemma record_vrfs_quiet d vrfs acc :
  vrfs_well_formed (PDict d) = true ->
  (forall x, In x vrfs -> In x (dict_keys d)) ->
  no_peer_issue d ->
  for_res vrfs acc (record_vrf_issues (PDict d)) = Ok acc.
Proof.
  intros Hwf Hsub Hq. induction vrfs as [|x vrfs IH]; [reflexivity|].
  pose proof (Hsub x (or_introl eq_refl)) as Hin.
  pose proof Hwf as Hwf'. cbn [vrfs_well_formed] in Hwf'.
  destruct (forallb_str_keys _ _ Hwf' Hin) as (v & ->).
  destruct (wf_vrf_lookup _ _ Hwf Hin) as (e & ps & He & Hps & Hpwf).
  cbn [for_res]. unfold record_vrf_issues at 1. unfold subscript.
  cbn [res_bind py_getitem hashable]. rewrite He. cbn [res_bind]. rewrite Hps.
  cbn [res_bind py_iter]. rewrite record_peers_quiet.
  - cbn [res_bind]. apply IH. intros y Hy. apply Hsub. now right.
  - intros y Hy. destruct (forallb_str_keys _ _ Hpwf Hy) as (p & ->).
    apply Hq. exists e, ps. auto.
Qed.

Lemma collect_state_issue_quiet d :
  vrfs_well_formed (PDict d) = true -> no_peer_issue d ->
  collect_state_issue (PDict d) = Ok (PDict []).
Proof.
  intros Hwf Hq. unfold collect_state_issue. cbn [py_iter res_bind].
  rewrite record_vrfs_quiet by auto. reflexivity.
Qed.

Lemma collect_non_established_loop ps : forall acc,
  peers_have_state ps = true ->
  for_res ps acc (fun acc item =>
       let '(peer, peer_dict) := item in
       (peerState <- Ok peer_dict !! PStr "peerState" ;;
       if negb (py_eq_str peerState "Established") then Ok (acc ++ [peer])%list else Ok acc)%res)
  = Ok (acc ++ non_established_names ps)%list.
Proof.
  induction ps as [|[peer x] ps IH]; intros acc Hst.
  - cbn. now rewrite app_nil_r.
  - cbn [peers_have_state forallb snd] in Hst. apply andb_true_iff in Hst as [Hx Hps].
    fold (peers_have_state ps) in Hps.
    cbn [for_res]. unfold subscript at 1. cbn [res_bind].
    unfold non_established_names. cbn [filter snd]. unfold established, has_key in *.
    destruct (py_getitem x (PStr "peerState")) as [st|]; [|discriminate]. cbn [res_bind].
    destruct (negb (py_eq_str st "Established")); cbn [res_bind map fst].
    + rewrite IH by assumption. unfold non_established_names. now rewrite <- app_assoc.
    + apply IH; assumption.
Qed.

(** The list comprehension of lines 255-259, 356-360 and 412-416 keeps
    the peers that are not established, in the order of the answer. *)
Lemma collect_non_established_names ps :
  peers_have_state ps = true ->
  collect_non_established (PDict ps) = Ok (PList (non_established_names ps)).
Proof.
  intros Hst. unfold collect_non_established. cbn [py_items res_bind].
  rewrite collect_non_established_loop by assumption. reflexivity.
Qed.

Section Verdicts.

Variable enabled : string -> InventoryDevice -> bool.
Variable skip_message : string -> string.

(** X8.  [verify_bgp_ipv4_unicast_state] and
    [verify_bgp_ipv6_unicast_state] on a well-formed summary with any
    number of VRFs: the check returns; when no listed peer has an issue
    the result is a success without message, and as soon as one listed
    peer has an issue it is a failure whose single message prints
    [state_issue]. *)
Theorem unicast_state_verdict c device response d :
  c = VerifyBgpIpv4UnicastState \/ c = VerifyBgpIpv6UnicastState ->
  family_enabled_for enabled c device = true ->
  session device (check_command c) = Ok response ->
  Ok response !! PInt 0 !! PStr "vrfs" = Ok (PDict d) ->
  vrfs_well_formed (PDict d) = true ->
  exists r s state_issue,
    run (run_check enabled skip_message c device) = (Ok r, s) /\
    collect_state_issue (PDict d) = Ok (PDict state_issue) /\
    (no_peer_issue d -> result r = Success /\ messages r = []) /\
    (forall v p, peer_listed d v p ->
                 peer_has_issue (PDict d) (PStr v) (PStr p) = Ok true ->
                 result r = Failure /\ messages r = [state_issue_message c state_issue]).
Proof.
  intros Hc Hen Hsess Hvrfs Hwf.
  destruct (collect_state_issue_reports d Hwf) as (si & Hsi & Hrep).
  assert (Hquiet : no_peer_issue d -> si = []).
  { intros Hq. pose proof (collect_state_issue_quiet d Hwf Hq) as H0.
    rewrite Hsi in H0. now injection H0. }
  assert (Hloud : forall v p, peer_listed d v p ->
            peer_has_issue (PDict d) (PStr v) (PStr p) = Ok true -> si <> []).
  { intros v p Hl Hi. destruct (Hrep v p Hl Hi) as (vd & E & Hvd & _).
    intros ->. discriminate Hvd. }
  unfold family_enabled_for in Hen.
  destruct Hc as [-> | ->]; cbn [check_family] in Hen; unfold check_command in Hsess;
    cbn [run_check state_issue_message]; unfold_checks; unfold_tries;
    unfold check_bgp_family_enable; rewrite Hen;
    repeat (unfold_stmt; rewrite ?Hsess, ?Hvrfs, ?Hsi).
  all: destruct si as [|kv si]; cbn [truthy negb]; unfold_all;
       eexists _, _, _; (split; [reflexivity|]); (split; [reflexivity|]); split.
  all: try (intros Hq; now split).
  all: try (intros v p Hl Hi; exfalso; now apply (Hloud v p Hl Hi)).
  all: try (intros Hq; specialize (Hquiet Hq); discriminate Hquiet).
  all: intros v p Hl Hi; split; reflexivity.
Qed.

(** X9.  [verify_bgp_evpn_state] and [verify_bgp_rtc_state] on an
    answer whose default VRF lists peers that all have a state: the
    result is a success without message when every peer is Established,
    and otherwise a failure whose message lists the peers that are not,
    in the order of the answer. *)
Theorem state_check_lists_non_established c device response ps :
  c = VerifyBgpEvpnState \/ c = VerifyBgpRtcState ->
  family_enabled_for enabled c device = true ->
  session device (check_command c) = Ok response ->
  Ok response !! PInt 0 !! PStr "vrfs" !! PStr "default" !! PStr "peers" = Ok (PDict ps) ->
  peers_have_state ps = true ->
  outcome (run_check enabled skip_message c device)
  = Ok (mkTestResult (device_host device) (check_name c)
          (if is_nil (non_established_names ps) then Success else Failure)
          (if is_nil (non_established_names ps) then []
           else [not_established_message c (non_established_names ps)])).
Proof.
  intros Hc Hen Hsess Hpeers Hst.
  pose proof (collect_non_established_names ps Hst) as Hnames.
  unfold family_enabled_for in Hen.
  destruct Hc as [-> | ->]; cbn [check_family] in Hen; unfold check_command in Hsess;
    cbn [run_check check_name not_established_message]; unfold_checks; unfold_tries;
    unfold check_bgp_family_enable; rewrite Hen.
  - apply chain_split in Hpeers as (c1 & Hpeers & H1).
    apply chain_split in Hpeers as (c2 & Hvrfs & H2).
    repeat (unfold_stmt; rewrite ?Hsess, ?Hvrfs; cbn [res_bind subscript];
            rewrite ?H2, ?H1, ?Hnames).
    rewrite truthy_list, negb_involutive.
    destruct (non_established_names ps); cbn [is_nil]; unfold_all; reflexivity.
  - repeat (unfold_stmt; rewrite ?Hsess, ?Hpeers, ?Hnames).
    rewrite truthy_list, negb_involutive.
    destruct (non_established_names ps); cbn [is_nil]; unfold_all; reflexivity.
Qed.

(** X10.  [verify_bgp_rtc_count] with a number, on an answer whose
    default VRF lists peers that all have a state: success exactly when
    every peer is Established and the count is the expected one.  The
    failure carries the message about the count when the count differs,
    and no message at all when the count is right and a peer is not
    established. *)
Theorem rtc_count_verdict device number response ps :
  enabled "rtc" device = true ->
  number <> 0 ->
  session device (mkCommand 1 ["show bgp rt-membership summary"] "json") = Ok response ->
  Ok response !! PInt 0 !! PStr "vrfs" !! PStr "default" !! PStr "peers" = Ok (PDict ps) ->
  peers_have_state ps = true ->
  let peer_number := Z.of_nat (List.length ps) in
  outcome (verify_bgp_rtc_count enabled skip_message device (Some number))
  = Ok (mkTestResult (device_host device) "verify_bgp_rtc_count"
          (if is_nil (non_established_names ps) && (peer_number =? number)
           then Success else Failure)
          (if peer_number =? number then []
           else ["Expecting " ++ string_of_Z number ++ " BGP RTC peers and got "
                   ++ string_of_Z peer_number])).
Proof.
  intros Hen Hnum Hsess Hpeers Hst peer_number.
  pose proof (collect_non_established_names ps Hst) as Hnames.
  unfold verify_bgp_rtc_count, verify_bgp_rtc_count_try, check_bgp_family_enable.
  rewrite Hen. cbn [not_int int_value]. apply Z.eqb_neq in Hnum. rewrite Hnum.
  repeat (unfold_stmt; rewrite ?Hsess, ?Hpeers, ?Hnames; cbn [py_len]).
  rewrite truthy_list, negb_involutive. fold peer_number.
  destruct (is_nil (non_established_names ps)); destruct (peer_number =? number);
    unfold_all; try reflexivity.
  all: match goal with
       | |- context [String.eqb ?m ""] => destruct (String.eqb_spec m "") as [Hm|Hm]
       end; [exfalso; revert Hm; cbn [append]; discriminate|reflexivity].
Qed.

(** X11.  A check that reads the peers of a VRF by name (the peer-count
    check of IPv4 and the four EVPN and RTC checks, which read
    "default") on a summary that has no such VRF: the [KeyError] is
    caught, the result is an error whose one message is the quoted name
    of the VRF, after the one command and a single status assignment. *)
Theorem missing_vrf_is_error c device response d vrf :
  vrf_read c = Some vrf ->
  family_enabled_for enabled c device = true ->
  parameters_supplied c = true ->
  session device (check_command c) = Ok response ->
  Ok response !! PInt 0 !! PStr "vrfs" = Ok (PDict d) ->
  dict_get (PStr vrf) d = None ->
  run (run_check enabled skip_message c device)
  = let r := mkTestResult (device_host device) (check_name c) Error [repr (PStr vrf)] in
    (Ok r, mkExec r [check_command c] [Error]).
Proof.
  intros Hread Hen Hpar Hsess Hvrfs Hnone.
  unfold family_enabled_for in Hen.
  destruct c; try discriminate Hread; injection Hread as <-;
    cbn [check_family] in Hen; unfold check_command in *;
    cbn [parameters_supplied] in Hpar; try (apply negb_true_iff in Hpar; rewrite ?Hpar);
    cbn [run_check check_name]; unfold_checks; unfold_tries;
    unfold check_bgp_family_enable; rewrite Hen; rewrite ?Hpar;
    repeat (unfold_stmt; rewrite ?Hsess, ?Hvrfs;
            cbn [subscript res_bind py_getitem hashable]; rewrite ?Hnone);
    cbn [caught_bgp str_exn]; cbn [repr]; rewrite ?repr_str_not_empty; reflexivity.
Qed.

End Verdicts.

(** ** The version checks *)

Lemma allowed_version version versions :
  existsb (py_eq_str (PStr version)) versions = true <-> In version versions.
Proof.
  rewrite existsb_exists. cbn [py_eq_str]. split.
  - intros (x & Hin & Hx). apply String.eqb_eq in Hx. now subst.
  - intros Hin. exists version. split; [assumption|apply String.eqb_refl].
Qed.

(** X12.  [verify_eos_version] with versions, on an answer that gives
    the version as text: one status is assigned; it is success without
    message when the version is among those allowed, and otherwise
    failure with the message that names the version. *)
Theorem eos_version_verdict device versions response version :
  versions <> [] ->
  session device (mkCommand 1 ["show version"] "json") = Ok response ->
  Ok response !! PInt 0 !! PStr "version" = Ok (PStr version) ->
  exists r s,
    run (verify_eos_version device (Some versions)) = (Ok r, s) /\
    host r = device_host device /\
    status_log s = [result r] /\
    (In version versions -> result r = Success /\ messages r = []) /\
    (~ In version versions ->
     result r = Failure /\
     messages r = ["device is running version " ++ version ++ " not in expected version"]).
Proof.
  intros Hne Hsess Hversion.
  unfold verify_eos_version, verify_eos_version_try.
  destruct versions as [|v0 vs]; [congruence|]. cbn [not_list list_value].
  repeat (unfold_stmt; rewrite ?Hsess, ?Hversion).
  destruct (existsb (py_eq_str (PStr version)) (v0 :: vs)) eqn:E; unfold_stmt;
    eexists _, _; (split; [reflexivity|]); cbn [host result messages status_log];
    (split; [reflexivity|]); (split; [reflexivity|]); split; intros Hin.
  - now split.
  - apply allowed_version in E. contradiction.
  - apply allowed_version in Hin. congruence.
  - split; reflexivity.
Qed.

(** X13.  [verify_terminattr_version] with versions, on an answer that
    gives the version of the TerminAttr-core package as text: one status
    is assigned; it is success without message when the version is among
    those allowed, and otherwise failure with the message that names the
    version. *)
Theorem terminattr_version_verdict device versions response version :
  versions <> [] ->
  session device (mkCommand 1 ["show version detail"] "json") = Ok response ->
  Ok response !! PInt 0 !! PStr "details" !! PStr "packages" !! PStr "TerminAttr-core"
    !! PStr "version" = Ok (PStr version) ->
  exists r s,
    run (verify_terminattr_version device (Some versions)) = (Ok r, s) /\
    host r = device_host device /\
    status_log s = [result r] /\
    (In version versions -> result r = Success /\ messages r = []) /\
    (~ In version versions ->
     result r = Failure /\
     messages r = ["device is running TerminAttr version " ++ version
                     ++ " and is not in the allowed list"]).
Proof.
  intros Hne Hsess Hversion.
  unfold verify_terminattr_version, verify_terminattr_version_try.
  destruct versions as [|v0 vs]; [congruence|]. cbn [not_list list_value].
  repeat (unfold_stmt; rewrite ?Hsess, ?Hversion).
  destruct (existsb (py_eq_str (PStr version)) (v0 :: vs)) eqn:E; unfold_stmt;
    eexists _, _; (split; [reflexivity|]); cbn [host result messages status_log];
    (split; [reflexivity|]); (split; [reflexivity|]); split; intros Hin.
  - now split.
  - apply allowed_version in E. contradiction.
  - apply allowed_version in Hin. congruence.
  - split; reflexivity.
Qed.

(** X14.  [verify_eos_extensions] builds no result and assigns no
    status: whatever the device answers, all it leaves behind is the one
    call that asks for the installed and the boot extensions. *)
Theorem extensions_check_builds_no_result device :
  final (verify_eos_extensions device)
  = mkExec (this_result start)
      [mkCommand 1 ["show extensions"; "show boot-extensions"] "json"] [].
Proof.
  unfold verify_eos_extensions, verify_eos_extensions_try.
  split_all; reflexivity.
Qed.

(** ** The configuration checks *)

(** X15.  The body of [VerifyZeroTouch.test], for every output and from
    every state.  When it runs to its end the first item of the output
    is a dict with a mode, one status was assigned, success if the mode
    is "disabled" and failure with "ZTP is NOT disabled" otherwise, and
    nothing else changed; when it raises (no first item, an item that is
    not a dict, no mode) the result is left as it was. *)
Theorem zero_touch_outcome output s0 :
  match VerifyZeroTouch_test output s0 with
  | (Ok _, s) =>
      exists d mode,
        Ok output !! PInt 0 = Ok (PDict d) /\
        dict_get (PStr "mode") d = Some mode /\
        let st := if py_eq_str mode "disabled" then Success else Failure in
        s = mkExec (mkTestResult (host (this_result s0)) (test (this_result s0)) st
                      (messages (this_result s0)
                         ++ (if py_eq_str mode "disabled" then [] else ["ZTP is NOT disabled"])))
                   (calls s0) (status_log s0 ++ [st])
  | (Raise _, s) => s = s0
  end.
Proof.
  unfold VerifyZeroTouch_test, bind, lift.
  destruct (Ok output !! PInt 0) as [command_output|e] eqn:Hout; [|reflexivity].
  destruct command_output as [| | | | |d]; cbn [is_dict]; try reflexivity.
  unfold subscript at 1. cbn [res_bind py_getitem hashable].
  destruct (dict_get (PStr "mode") d) as [mode|] eqn:Hmode; [|reflexivity].
  destruct (py_eq_str mode "disabled") eqn:Hdisabled;
    unfold is_success, is_failure, set_status, bind, set_result, append_message, ret;
    cbn [String.eqb Ascii.eqb Bool.eqb this_result host test result messages calls status_log];
    exists d, mode; (split; [reflexivity|]); (split; [exact Hmode|]);
    rewrite Hdisabled; cbv zeta; now rewrite ?app_nil_r.
Qed.

Lemma report_characters text : forall h t ms cs log,
  report_lines (string_chars text) (mkExec (mkTestResult h t Failure ms) cs log)
  = (Ok tt, mkExec (mkTestResult h t Failure (ms ++ characters text)) cs
              (log ++ repeat Failure (String.length text))).
Proof.
  induction text as [|c text IH]; intros h t ms cs log.
  - cbn. now rewrite !app_nil_r.
  - cbn [string_chars report_lines characters String.length repeat].
    unfold_all. rewrite IH. rewrite <- !app_assoc. reflexivity.
Qed.

(** X16.  The body of [VerifyRunningConfigDiffs.test] on an output that
    is a text (the format the command asks for): the loop of lines 63-64
    walks the text character by character, so the result is a failure
    with one message per character of the text, and failure is assigned
    once more than the text has characters. *)
Theorem running_config_diffs_on_text text s0 :
  VerifyRunningConfigDiffs_test (PStr text) s0
  = (Ok tt,
     mkExec (mkTestResult (host (this_result s0)) (test (this_result s0)) Failure
               (messages (this_result s0) ++ characters text))
            (calls s0) (status_log s0 ++ repeat Failure (S (String.length text)))).
Proof.
  cbn [VerifyRunningConfigDiffs_test py_iter]. unfold_all. rewrite report_characters.
  cbn [repeat]. rewrite <- app_assoc. reflexivity.
Qed.

(** ** The device a debug command runs on *)

(** X17.  The selection of lines 41 and 71 of the debug commands: the
    device taken is the first of the inventory that has the name asked
    for, and the selection raises [IndexError] exactly when no device
    of the inventory has that name. *)
Theorem select_device_is_first_match {D : Type} (name_of : D -> string) inventory device :
  match select_device name_of inventory device with
  | Ok d =>
      exists before after,
        inventory = (before ++ d :: after)%list /\
        name_of d = device /\
        forall x, In x before -> name_of x <> device
  | Raise e =>
      e = IndexError "list index out of range" /\
      forall x, In x inventory -> name_of x <> device
  end.
Proof.
  unfold select_device. induction inventory as [|x inventory IH]; cbn [filter].
  - split; [reflexivity|]. intros x [].
  - destruct (String.eqb_spec (name_of x) device) as [Hx|Hx].
    + exists [], inventory. split; [reflexivity|]. split; [assumption|]. intros y [].
    + destruct (filter (fun d => String.eqb (name_of d) device) inventory) as [|d l].
      * destruct IH as [He Hall]. split; [reflexivity|].
        intros y [<-|Hy]; auto.
      * destruct IH as (before & after & -> & Hd & Hbefore).
        exists (x :: before), after. split; [reflexivity|]. split; [assumption|].
        intros y [<-|Hy]; auto.
Qed.

(** ** The further properties at sample inputs *)

(** The result of [verify_vxlan] on the sample Vxlan1. *)
Lemma result_names_device_and_check_witness :
  exists r s,
    run (run_check every_family_enabled no_family_message VerifyVxlan vxlan1_up) = (Ok r, s) /\
    host r = "leaf1" /\ test r = "verify_vxlan".
Proof.
  eexists _, _. split; [reflexivity|].
  apply (result_names_device_and_check every_family_enabled no_family_message
           VerifyVxlan vxlan1_up _ _ eq_refl).
Defined.

(** The RTC count check without its number: skipped, nothing sent. *)
Lemma skipped_before_any_command_witness :
  exists r s,
    run (run_check every_family_enabled no_family_message (VerifyBgpRtcCount None)
           one_idle_peer) = (Ok r, s) /\
    result r = Skipped /\
    (calls s = [] \/ VerifyBgpRtcCount None = VerifyVxlanConfigSanity).
Proof.
  eexists _, _. split; [reflexivity|]. split; [reflexivity|].
  apply (skipped_before_any_command every_family_enabled no_family_message
           (VerifyBgpRtcCount None) one_idle_peer _ _ eq_refl eq_refl).
Defined.

(** The EOS version check without versions returns an unset result. *)
Lemma unset_only_without_verdict_witness :
  exists r s,
    run (run_check every_family_enabled no_family_message (VerifyEosVersion None)
           running_4_27) = (Ok r, s) /\
    result r = Unset /\
    (VerifyEosVersion None = VerifyVxlan \/
     exists versions,
       (VerifyEosVersion None = VerifyEosVersion versions \/
        VerifyEosVersion None = VerifyTerminattrVersion versions) /\
       not_list versions = true).
Proof.
  eexists _, _. split; [reflexivity|]. split; [reflexivity|].
  apply (unset_only_without_verdict every_family_enabled no_family_message
           (VerifyEosVersion None) running_4_27 _ _ eq_refl eq_refl).
Defined.

(** A Vxlan1 that is up in both fields [verify_vxlan] reads. *)
Lemma vxlan_success_means_both_up_witness :
  exists r s,
    run (verify_vxlan vxlan1_up_as_read) = (Ok r, s) /\
    result r = Success /\
    exists response,
      session vxlan1_up_as_read (mkCommand 1 ["show interfaces description"] "json")
        = Ok response /\
      Ok response !! PInt 0 !! PStr "interfaceDescriptions" !! PStr "Vxlan1"
        !! PStr "lineProtocolStatus" = Ok (PStr "up") /\
      Ok response !! PInt 0 !! PStr "interfaceDescriptions" !! PStr "Vxlan1"
        !! PStr "intefraceStatus" = Ok (PStr "up") /\
      messages r = [].
Proof.
  eexists _, _. split; [reflexivity|]. split; [reflexivity|].
  apply (vxlan_success_means_both_up vxlan1_up_as_read _ _ eq_refl eq_refl).
Defined.

(** Config sanity where only a category the check does not look at
    fails: success. *)
Lemma config_sanity_verdict_witness :
  outcome (verify_vxlan_config_sanity sanity_device)
  = Ok (mkTestResult "leaf1" "verify_vxlan_config_sanity" Success []).
Proof.
  apply (config_sanity_verdict sanity_device sanity_response sanity_categories
           eq_refl eq_refl); [discriminate|reflexivity].
Defined.

(** The two sample VRFs: the active peer of PROD is reported, and
    nothing else is. *)
Lemma state_issue_is_exact_witness :
  exists state_issue,
    collect_state_issue (PDict two_vrfs) = Ok (PDict state_issue) /\
    (forall v p, peer_listed two_vrfs v p ->
                 peer_has_issue (PDict two_vrfs) (PStr v) (PStr p) = Ok true ->
                 reported (PDict two_vrfs) state_issue v p) /\
    only_issues (PDict two_vrfs) state_issue.
Proof.
  apply (state_issue_is_exact two_vrfs eq_refl).
Defined.

(** The IPv6 state check on the two sample VRFs. *)
Lemma unicast_state_verdict_witness :
  exists r s state_issue,
    run (run_check every_family_enabled no_family_message VerifyBgpIpv6UnicastState
           two_vrfs_one_active) = (Ok r, s) /\
    collect_state_issue (PDict two_vrfs) = Ok (PDict state_issue) /\
    (no_peer_issue two_vrfs -> result r = Success /\ messages r = []) /\
    (forall v p, peer_listed two_vrfs v p ->
                 peer_has_issue (PDict two_vrfs) (PStr v) (PStr p) = Ok true ->
                 result r = Failure /\
                 messages r = [state_issue_message VerifyBgpIpv6UnicastState state_issue]).
Proof.
  apply (unicast_state_verdict every_family_enabled no_family_message
           VerifyBgpIpv6UnicastState two_vrfs_one_active two_vrfs_summary two_vrfs
           (or_intror eq_refl) eq_refl eq_refl eq_refl eq_refl).
Defined.

(** The RTC state check with one peer of two established. *)
Lemma state_check_lists_non_established_witness :
  outcome (run_check every_family_enabled no_family_message VerifyBgpRtcState
             one_of_two_established)
  = Ok (mkTestResult "leaf1" "verify_bgp_rtc_state" Failure
          ["The following RTC peers are not established: ['10.0.0.2']"]).
Proof.
  apply (state_check_lists_non_established every_family_enabled no_family_message
           VerifyBgpRtcState one_of_two_established
           (bgp_summary [("default", [("10.0.0.1", bgp_peer "Established" 0 0);
                                      ("10.0.0.2", bgp_peer "Idle" 0 0)])])
           two_peers (or_intror eq_refl) eq_refl eq_refl eq_refl eq_refl).
Defined.

(** Two RTC peers expected and two present, one of them idle: a failure
    without message. *)
Lemma rtc_count_verdict_witness :
  outcome (verify_bgp_rtc_count every_family_enabled no_family_message
             one_of_two_established (Some 2))
  = Ok (mkTestResult "leaf1" "verify_bgp_rtc_count" Failure []).
Proof.
  apply (rtc_count_verdict every_family_enabled no_family_message one_of_two_established 2
           (bgp_summary [("default", [("10.0.0.1", bgp_peer "Established" 0 0);
                                      ("10.0.0.2", bgp_peer "Idle" 0 0)])])
           two_peers eq_refl); [discriminate|reflexivity|reflexivity|reflexivity].
Defined.

(** The EVPN state check on a summary without the default VRF. *)
Lemma missing_vrf_is_error_witness :
  run (run_check every_family_enabled no_family_message VerifyBgpEvpnState only_prod_vrf)
  = (Ok (mkTestResult "leaf1" "verify_bgp_evpn_state" Error ["'default'"]),
     mkExec (mkTestResult "leaf1" "verify_bgp_evpn_state" Error ["'default'"])
            [mkCommand 1 ["show bgp evpn summary"] "json"] [Error]).
Proof.
  apply (missing_vrf_is_error every_family_enabled no_family_message VerifyBgpEvpnState
           only_prod_vrf
           (bgp_summary [("PROD", [("10.0.0.1", bgp_peer "Established" 0 0)])])
           [(PStr "PROD", obj [("peers", obj [("10.0.0.1", bgp_peer "Established" 0 0)])])]
           "default" eq_refl eq_refl eq_refl eq_refl eq_refl eq_refl).
Defined.

(** EOS 4.27.0F where 4.27.0F and 4.28.1F are allowed. *)
Lemma eos_version_verdict_witness :
  exists r s,
    run (verify_eos_version running_4_27 (Some ["4.27.0F"; "4.28.1F"])) = (Ok r, s) /\
    host r = "leaf1" /\
    status_log s = [result r] /\
    (In "4.27.0F" ["4.27.0F"; "4.28.1F"] -> result r = Success /\ messages r = []) /\
    (~ In "4.27.0F" ["4.27.0F"; "4.28.1F"] ->
     result r = Failure /\
     messages r = ["device is running version 4.27.0F not in expected version"]).
Proof.
  apply (eos_version_verdict running_4_27 ["4.27.0F"; "4.28.1F"] version_response "4.27.0F");
    [discriminate|reflexivity|reflexivity].
Defined.

(** TerminAttr v1.17.0 where only v1.19.5 is allowed. *)
Lemma terminattr_version_verdict_witness :
  exists r s,
    run (verify_terminattr_version running_4_27 (Some ["v1.19.5"])) = (Ok r, s) /\
    host r = "leaf1" /\
    status_log s = [result r] /\
    (In "v1.17.0" ["v1.19.5"] -> result r = Success /\ messages r = []) /\
    (~ In "v1.17.0" ["v1.19.5"] ->
     result r = Failure /\
     messages r = ["device is running TerminAttr version v1.17.0 and is not in the allowed list"]).
Proof.
  apply (terminattr_version_verdict running_4_27 ["v1.19.5"] version_response "v1.17.0");
    [discriminate|reflexivity|reflexivity].
Defined.

(** Four peers expected where three healthy ones are present. *)
Lemma ipv4_count_on_healthy_peers_witness :
  outcome (verify_bgp_ipv4_unicast_count every_family_enabled no_family_message
             three_healthy_peers (Some 4) (Some "default"))
  = Ok (mkTestResult "leaf1" "verify_bgp_ipv4_unicast_count" Failure
          ["Expecting 4 BGP peer in vrf default and got 3"]).
Proof.
  apply (ipv4_count_on_healthy_peers every_family_enabled no_family_message
           three_healthy_peers 4 "default"
           (bgp_summary [("default", [("10.0.0.1", bgp_peer "Established" 0 0);
                                      ("10.0.0.2", bgp_peer "Established" 0 0);
                                      ("10.0.0.3", bgp_peer "Established" 0 0)])])
           (obj [("default", obj [("peers", obj [("10.0.0.1", bgp_peer "Established" 0 0);
                                                  ("10.0.0.2", bgp_peer "Established" 0 0);
                                                  ("10.0.0.3", bgp_peer "Established" 0 0)])])])
           [(PStr "10.0.0.1", bgp_peer "Established" 0 0);
            (PStr "10.0.0.2", bgp_peer "Established" 0 0);
            (PStr "10.0.0.3", bgp_peer "Established" 0 0)]
           eq_refl); [discriminate|discriminate|reflexivity|reflexivity|reflexivity|reflexivity].
Defined.
